(** * cluster/node.go: node lifecycle and cluster bootstrap

    A shallow embedding of [cluster.Node] (package [cluster], file
    [cluster/node.go]) and of its methods [Startup], [initMaster],
    [initMember], [Shutdown], the four [Handle*] stubs and [NewMember].

    The Go code is imperative: it mutates the receiver [*Node], calls the
    network ([net.Listen], the gRPC client), calls the hooks of the hosted
    components and launches goroutines.  It is embedded in a small monad
    [Go] that threads the node, accumulates the observable calls in a
    trace of events and distinguishes a normal return, a returned [error]
    and a [panic].  What the outside world answers (does a bind succeed,
    does the master accept the registration) comes from an environment
    record [Env] of oracles. *)

From stdpp Require Import base option list strings gmap fin_maps.


(** ** Go's [error] and the [errors] / [fmt] constructors used by the file *)

(** A non-nil [error] is represented by its message. *)
Definition error := string.

Module errors.
Definition New (text : string) : error := text.
End errors.

Module fmt.
(** [fmt.Errorf("member address (%s) invalid in cluster mode", a)]: the only
    format string of the file that builds an error, with its one [%s] verb. *)
Definition Errorf_member_address (a : string) : error :=
  "member address (" +:+ a +:+ ") invalid in cluster mode".
End fmt.

(** ** The two functions of package [strings] used by [initMember] *)

Module GoStrings.
(** [strings.Index(s, substr)]: position of the first occurrence. *)
Definition Index (s substr : string) : option nat := String.index 0 substr s.

(** [strings.Contains(s, substr)]. *)
Definition Contains (s substr : string) : bool :=
  match Index s substr with Some _ => true | None => false end.

(** [strings.SplitN(s, sep, n)] for a non-empty [sep] and [n >= 0]: at most
    [n] substrings, the last one being the unsplit remainder. *)
Fixpoint SplitN (s sep : string) (n : nat) : list string :=
  match n with
  | 0 => []
  | S n' =>
      match n' with
      | 0 => [s]
      | S _ =>
          match Index s sep with
          | None => [s]
          | Some i =>
              let k := i + String.length sep in
              String.substring 0 i s
                :: SplitN (String.substring k (String.length s - k) s) sep n'
          end
      end
  end.
End GoStrings.

(** ** Collaborating packages *)

Module component.
(** A hosted component is opaque to the node: only its identity matters. *)
Definition Component := string.
Definition Option := string.

(** One entry of [Components.List()]. *)
Record CompWithOptions := { Comp : Component; Opts : list Option }.
End component.

Module clusterpb.
Record MemberInfo := {
  MemberType : string;
  MemberAddr : string;
  Services : list string
}.

Record RegisterRequest := { req_MemberInfo : MemberInfo }.
Record RegisterResponse := { Members : list MemberInfo }.
Record NewMemberRequest := { nm_MemberInfo : MemberInfo }.
Record NewMemberResponse := { }.

(** The four forwarding envelopes and their common answer; the stubs of
    [node.go] never look inside them. *)
Record RequestMessage := { rq_payload : string }.
Record NotifyMessage := { nt_payload : string }.
Record PushMessage := { ps_payload : string }.
Record ResponseMessage := { rs_payload : string }.
Record MemberHandleResponse := { }.

(** The two gRPC services a server can be registered for. *)
Inductive Service := MasterService | MemberService.
End clusterpb.

Module net.
Record Listener := { network : string; laddr : string }.
End net.

Module grpc.
(** A [*grpc.Server]: the services registered on it, the listeners on which
    a [Serve] has been launched, and whether it has been stopped. *)
Record Server := {
  registered : list clusterpb.Service;
  listeners : list net.Listener;
  stopped : bool
}.

Definition NewServer : Server :=
  {| registered := []; listeners := []; stopped := false |}.

Definition RegisterService (svc : clusterpb.Service) (s : Server) : Server :=
  {| registered := registered s ++ [svc];
     listeners := listeners s; stopped := stopped s |}.

Definition Serve (l : net.Listener) (s : Server) : Server :=
  {| registered := registered s;
     listeners := listeners s ++ [l]; stopped := stopped s |}.

Definition GracefulStop (s : Server) : Server :=
  {| registered := registered s; listeners := listeners s; stopped := true |}.

(** A server is reachable when a [Serve] was launched on some listener and
    it has not been stopped. *)
Definition running (s : Server) : bool :=
  match listeners s with [] => false | _ :: _ => negb (stopped s) end.
End grpc.

(** ** Types of package [cluster] declared outside [node.go] *)

(** [rpcClient]: only its identity is used by [node.go]. *)
Inductive rpcClient_t := RPCClient.

Definition newRPCClient : rpcClient_t := RPCClient.

Record Member := {
  isMaster : bool;
  memberInfo : clusterpb.MemberInfo
}.

(** [cluster]: the master's topology. *)
Record cluster_t := {
  members : list Member;
  c_rpcClient : option rpcClient_t
}.

(** Modelled from the spec: [newCluster] is declared in a file of the package
    that is not part of the sources; the topology is "created fresh in
    Startup", so its member list starts empty and it has no client yet. *)
Definition newCluster : cluster_t :=
  {| members := []; c_rpcClient := None |}.

Definition append_member (m : Member) (c : cluster_t) : cluster_t :=
  {| members := members c ++ [m]; c_rpcClient := c_rpcClient c |}.

Definition cluster_setRpcClient (r : rpcClient_t) (c : cluster_t) : cluster_t :=
  {| members := members c; c_rpcClient := Some r |}.

(** [LocalHandler]: the service registry of the node. *)
Record LocalHandler := {
  h_pipeline : string;
  localServices : list string;
  remoteServices : gmap string string;
  h_rpcClient : option rpcClient_t
}.

(** Modelled from the spec: [NewHandler] is not part of the sources; the
    registry is created fresh, with no local and no remote entries. *)
Definition NewHandler (pipeline : string) : LocalHandler :=
  {| h_pipeline := pipeline; localServices := [];
     remoteServices := ∅; h_rpcClient := None |}.

Definition LocalService (h : LocalHandler) : list string := localServices h.

Definition handler_setRpcClient (r : rpcClient_t) (h : LocalHandler) : LocalHandler :=
  {| h_pipeline := h_pipeline h; localServices := localServices h;
     remoteServices := remoteServices h; h_rpcClient := Some r |}.

(** Modelled from the spec: [addRemoteService] is not part of the sources;
    "receiving a new-member announcement adds that member's services as
    remote entries in the local ServiceRegistry", last write wins on the
    service -> address mapping. *)
Definition addRemoteService (mi : clusterpb.MemberInfo) (h : LocalHandler) : LocalHandler :=
  {| h_pipeline := h_pipeline h; localServices := localServices h;
     remoteServices :=
       foldl (λ m s, <[s := clusterpb.MemberAddr mi]> m)
             (remoteServices h) (clusterpb.Services mi);
     h_rpcClient := h_rpcClient h |}.

(** Modelled from the spec: [initRemoteService] is not part of the sources;
    the member "seeds its ServiceRegistry's remote entries from every
    returned member's services, attributed to that member's address". *)
Definition initRemoteService (ms : list clusterpb.MemberInfo) (h : LocalHandler) : LocalHandler :=
  foldl (λ h' mi, addRemoteService mi h') h ms.

(** ** The node *)

Record Node := {
  IsMaster : bool;
  AdvertiseAddr : string;
  MemberAddr : string;
  ServerAddr : string;
  Components : list component.CompWithOptions;
  IsWebsocket : bool;
  TSLCertificate : string;
  TSLKey : string;
  Pipeline : string;

  cluster : option cluster_t;
  handler : option LocalHandler;
  masterServer : option grpc.Server;
  memberServer : option grpc.Server;
  rpcClient : option rpcClient_t
}.

(** A node as the application constructs it: the exported fields are set, the
    unexported ones are nil. *)
Definition mkNode (isMaster : bool) (advertise member server : string)
    (comps : list component.CompWithOptions)
    (ws : bool) (cert key : string) : Node :=
  {| IsMaster := isMaster; AdvertiseAddr := advertise; MemberAddr := member;
     ServerAddr := server; Components := comps; IsWebsocket := ws;
     TSLCertificate := cert; TSLKey := key; Pipeline := "";
     cluster := None; handler := None; masterServer := None;
     memberServer := None; rpcClient := None |}.

Definition fresh (n : Node) : Prop :=
  cluster n = None ∧ handler n = None ∧ masterServer n = None
  ∧ memberServer n = None ∧ rpcClient n = None.

Definition set_cluster (c : option cluster_t) (n : Node) : Node :=
  {| IsMaster := IsMaster n; AdvertiseAddr := AdvertiseAddr n;
     MemberAddr := MemberAddr n; ServerAddr := ServerAddr n;
     Components := Components n; IsWebsocket := IsWebsocket n;
     TSLCertificate := TSLCertificate n; TSLKey := TSLKey n;
     Pipeline := Pipeline n;
     cluster := c; handler := handler n; masterServer := masterServer n;
     memberServer := memberServer n; rpcClient := rpcClient n |}.

Definition set_handler (h : option LocalHandler) (n : Node) : Node :=
  {| IsMaster := IsMaster n; AdvertiseAddr := AdvertiseAddr n;
     MemberAddr := MemberAddr n; ServerAddr := ServerAddr n;
     Components := Components n; IsWebsocket := IsWebsocket n;
     TSLCertificate := TSLCertificate n; TSLKey := TSLKey n;
     Pipeline := Pipeline n;
     cluster := cluster n; handler := h; masterServer := masterServer n;
     memberServer := memberServer n; rpcClient := rpcClient n |}.

Definition set_masterServer (s : option grpc.Server) (n : Node) : Node :=
  {| IsMaster := IsMaster n; AdvertiseAddr := AdvertiseAddr n;
     MemberAddr := MemberAddr n; ServerAddr := ServerAddr n;
     Components := Components n; IsWebsocket := IsWebsocket n;
     TSLCertificate := TSLCertificate n; TSLKey := TSLKey n;
     Pipeline := Pipeline n;
     cluster := cluster n; handler := handler n; masterServer := s;
     memberServer := memberServer n; rpcClient := rpcClient n |}.

Definition set_memberServer (s : option grpc.Server) (n : Node) : Node :=
  {| IsMaster := IsMaster n; AdvertiseAddr := AdvertiseAddr n;
     MemberAddr := MemberAddr n; ServerAddr := ServerAddr n;
     Components := Components n; IsWebsocket := IsWebsocket n;
     TSLCertificate := TSLCertificate n; TSLKey := TSLKey n;
     Pipeline := Pipeline n;
     cluster := cluster n; handler := handler n; masterServer := masterServer n;
     memberServer := s; rpcClient := rpcClient n |}.

Definition set_rpcClient (r : option rpcClient_t) (n : Node) : Node :=
  {| IsMaster := IsMaster n; AdvertiseAddr := AdvertiseAddr n;
     MemberAddr := MemberAddr n; ServerAddr := ServerAddr n;
     Components := Components n; IsWebsocket := IsWebsocket n;
     TSLCertificate := TSLCertificate n; TSLKey := TSLKey n;
     Pipeline := Pipeline n;
     cluster := cluster n; handler := handler n; masterServer := masterServer n;
     memberServer := memberServer n; rpcClient := r |}.

(** ** Observable calls *)

Module hook.
(** The four lifecycle hooks of [component.Component]. *)
Inductive t := Init | AfterInit | BeforeShutdown | Shutdown.

Definition eqb (a b : t) : bool :=
  match a, b with
  | Init, Init | AfterInit, AfterInit
  | BeforeShutdown, BeforeShutdown | Shutdown, Shutdown => true
  | _, _ => false
  end.
End hook.

(** The three acceptor loops of the file. *)
Inductive Acceptor := listenAndServe | listenAndServeWS | listenAndServeWSTLS.

(** The bodies of the three [go func() { ... }()] statements. *)
Inductive Goroutine :=
| ServeMaster (l : net.Listener)
| ServeMember (l : net.Listener)
| AcceptLoop (a : Acceptor).

Inductive ServerField := MasterServer | MemberServer.

Inductive Event :=
| EvRegister (c : component.Component)          (* n.handler.register *)
| EvCache                                       (* cache() *)
| EvListen (network address : string)           (* net.Listen *)
| EvGo (g : Goroutine)                          (* go func() {...}() *)
| EvDial (address : string)                     (* n.rpcClient.getConnArray *)
| EvRegisterRPC (req : clusterpb.RegisterRequest) (* client.Register *)
| EvHook (h : hook.t) (c : component.Component) (* c.Comp.Init() ... *)
| EvGracefulStop (s : ServerField).             (* GracefulStop() *)

Definition is_network (e : Event) : bool :=
  match e with
  | EvListen _ _ | EvDial _ | EvRegisterRPC _ => true
  | _ => false
  end.

Definition is_hook (e : Event) : bool :=
  match e with EvHook _ _ => true | _ => false end.

Definition is_acceptor (e : Event) : bool :=
  match e with EvGo (AcceptLoop _) => true | _ => false end.

Definition is_listen (e : Event) : bool :=
  match e with EvListen _ _ => true | _ => false end.

Definition is_stop (e : Event) : bool :=
  match e with EvGracefulStop _ => true | _ => false end.

(** ** What the world answers *)

Record Env := {
  (** [LocalHandler.register]: the registry extended with the component's
      service, or the error it reports. *)
  handler_register :
    LocalHandler → component.Component → list component.Option →
    error + LocalHandler;
  (** [net.Listen(network, address)]: [None] when the bind succeeds. *)
  net_Listen : string → string → option error;
  (** [rpcClient.getConnArray(addr)]: [None] when a pool is obtained. *)
  getConnArray : string → option error;
  (** [MasterClient.Register]: the master's answer. *)
  master_Register :
    clusterpb.RegisterRequest → error + clusterpb.RegisterResponse
}.

(** ** The monad *)

Inductive Outcome (A : Type) :=
| Return (a : A)         (* the call returns, with a nil error *)
| Fail (e : error)       (* the call returns a non-nil error *)
| Panic (msg : string).  (* the call panics *)
Arguments Return {A} a.
Arguments Fail {A} e.
Arguments Panic {A} msg.

Definition Go (A : Type) : Type := Node → Outcome A * Node * list Event.

Definition run {A} (m : Go A) (n : Node) : Outcome A * Node * list Event := m n.
Definition result {A} (m : Go A) (n : Node) : Outcome A := (m n).1.1.
Definition final {A} (m : Go A) (n : Node) : Node := (m n).1.2.
Definition trace {A} (m : Go A) (n : Node) : list Event := (m n).2.

#[export] Instance Go_ret : MRet Go := λ A a n, (Return a, n, []).

#[export] Instance Go_bind : MBind Go := λ A B f m n,
  match m n with
  | (Return a, n', t) =>
      match f a n' with (r, n'', t') => (r, n'', t ++ t') end
  | (Fail e, n', t) => (Fail e, n', t)
  | (Panic msg, n', t) => (Panic msg, n', t)
  end.

Definition get : Go Node := λ n, (Return n, n, []).
Definition modify (f : Node → Node) : Go unit := λ n, (Return tt, f n, []).
Definition emit (e : Event) : Go unit := λ n, (Return tt, n, [e]).
Definition fail {A} (e : error) : Go A := λ n, (Fail e, n, []).
Definition panic {A} (msg : string) : Go A := λ n, (Panic msg, n, []).

(** Dereferencing a pointer field: nil panics. *)
Definition deref {A} (p : option A) : Go A :=
  match p with
  | Some a => mret a
  | None => panic "invalid memory address or nil pointer dereference"
  end.

(** [s[i]] on a slice: out of range panics. *)
Definition at_index {A} (s : list A) (i : nat) : Go A :=
  match s !! i with
  | Some a => mret a
  | None => panic "index out of range"
  end.

(** [for _, x := range xs { body(x) }] *)
Fixpoint range {A} (xs : list A) (body : A → Go unit) : Go unit :=
  match xs with
  | [] => mret tt
  | x :: xs' => body x;; range xs' body
  end.

(** [for i := length - 1; i >= 0; i-- { body(i) }]: the argument counts the
    iterations left, so the index of the next iteration is its predecessor. *)
Fixpoint downfrom (length : nat) (body : nat → Go unit) : Go unit :=
  match length with
  | 0 => mret tt
  | S i => body i;; downfrom i body
  end.

(** ** The methods of [Node] *)

Section Methods.
Variable E : Env.

(** [n.handler.register(c.Comp, c.Opts)] followed by
    [if err != nil { return err }]. *)
Definition register (c : component.CompWithOptions) : Go unit :=
  n ← get;
  h ← deref (handler n);
  emit (EvRegister (component.Comp c));;
  match handler_register E h (component.Comp c) (component.Opts c) with
  | inl err => fail err
  | inr h' => modify (set_handler (Some h'))
  end.

(** [cache()]: the process-wide index, of which the node sees nothing. *)
Definition cache : Go unit := emit EvCache.

(** [listener, err := net.Listen(network, address)] followed by
    [if err != nil { return err }]. *)
Definition Listen (network address : string) : Go net.Listener :=
  emit (EvListen network address);;
  match net_Listen E network address with
  | Some err => fail err
  | None => mret {| net.network := network; net.laddr := address |}
  end.

Definition on_masterServer (f : grpc.Server → grpc.Server) : Go unit :=
  n ← get;
  s ← deref (masterServer n);
  modify (set_masterServer (Some (f s))).

Definition on_memberServer (f : grpc.Server → grpc.Server) : Go unit :=
  n ← get;
  s ← deref (memberServer n);
  modify (set_memberServer (Some (f s))).

Definition on_cluster (f : cluster_t → cluster_t) : Go unit :=
  n ← get;
  c ← deref (cluster n);
  modify (set_cluster (Some (f c))).

Definition on_handler (f : LocalHandler → LocalHandler) : Go unit :=
  n ← get;
  h ← deref (handler n);
  modify (set_handler (Some (f h))).

Definition initMaster : Go unit :=
  n ← get;
  listener ← Listen "tcp" (AdvertiseAddr n);
  modify (set_masterServer (Some grpc.NewServer));;
  modify (set_memberServer (Some grpc.NewServer));;
  on_masterServer (grpc.RegisterService clusterpb.MasterService);;
  on_memberServer (grpc.RegisterService clusterpb.MemberService);;
  (* go func() { n.masterServer.Serve(listener) ... }() *)
  emit (EvGo (ServeMaster listener));;
  on_masterServer (grpc.Serve listener);;
  modify (set_rpcClient (Some newRPCClient));;
  n ← get;
  h ← deref (handler n);
  let member :=
    {| isMaster := true;
       memberInfo :=
         {| clusterpb.MemberType := "master";
            clusterpb.MemberAddr := MemberAddr n;
            clusterpb.Services := LocalService h |} |} in
  on_cluster (append_member member);;
  r ← deref (rpcClient n);
  on_cluster (cluster_setRpcClient r);;
  on_handler (handler_setRpcClient r);;
  mret tt.

(** The guard of [initMember], with Go's short-circuit [||]. *)
Definition memberAddr_invalid (addr : string) : Go bool :=
  if String.eqb addr "" then mret true
  else if negb (GoStrings.Contains addr ":") then mret true
  else
    host ← at_index (GoStrings.SplitN addr ":" 2) 0;
    mret (String.eqb host "").

Definition initMember : Go unit :=
  n ← get;
  invalid ← memberAddr_invalid (MemberAddr n);
  if (invalid : bool) then fail (fmt.Errorf_member_address (MemberAddr n))
  else
    listener ← Listen "tcp" (MemberAddr n);
    modify (set_memberServer (Some grpc.NewServer));;
    on_memberServer (grpc.RegisterService clusterpb.MemberService);;
    (* go func() { n.memberServer.Serve(listener) ... }() *)
    emit (EvGo (ServeMember listener));;
    on_memberServer (grpc.Serve listener);;
    (* Register current node to master *)
    modify (set_rpcClient (Some newRPCClient));;
    emit (EvDial (AdvertiseAddr n));;
    match getConnArray E (AdvertiseAddr n) with
    | Some err => fail err
    | None =>
        n ← get;
        h ← deref (handler n);
        let request :=
          {| clusterpb.req_MemberInfo :=
               {| clusterpb.MemberType := "member";
                  clusterpb.MemberAddr := MemberAddr n;
                  clusterpb.Services := LocalService h |} |} in
        emit (EvRegisterRPC request);;
        match master_Register E request with
        | inl err => fail err
        | inr resp =>
            on_handler (initRemoteService (clusterpb.Members resp));;
            r ← deref (rpcClient n);
            on_handler (handler_setRpcClient r);;
            mret tt
        end
    end.

(** The body of the goroutine launched at the end of [Startup]. *)
Definition acceptor (n : Node) : Acceptor :=
  if IsWebsocket n then
    if negb (Nat.eqb (String.length (TSLCertificate n)) 0)
    then listenAndServeWSTLS
    else listenAndServeWS
  else listenAndServe.

Definition Startup : Go unit :=
  n ← get;
  if IsMaster n && String.eqb (AdvertiseAddr n) "" then
    fail (errors.New "advertise address cannot be empty in master node")
  else
    modify (set_cluster (Some newCluster));;
    modify (set_handler (Some (NewHandler (Pipeline n))));;
    let components := Components n in
    range components register;;
    cache;;
    (* Bootstrap cluster if either current is master or advertise
       address is not empty *)
    (if IsMaster n then initMaster
     else if negb (String.eqb (AdvertiseAddr n) "") then initMember
     else mret tt);;
    (* Initialize all components *)
    range components (λ c, emit (EvHook hook.Init (component.Comp c)));;
    range components (λ c, emit (EvHook hook.AfterInit (component.Comp c)));;
    n ← get;
    emit (EvGo (AcceptLoop (acceptor n)));;
    mret tt.

(** Shutdowns all components registered by application, that
    call by reverse order against register *)
Definition Shutdown : Go unit :=
  n ← get;
  let components := Components n in
  let length := length components in
  (* reverse call `BeforeShutdown` hooks *)
  downfrom length (λ i,
    c ← at_index components i;
    emit (EvHook hook.BeforeShutdown (component.Comp c)));;
  (* reverse call `Shutdown` hooks *)
  downfrom length (λ i,
    c ← at_index components i;
    emit (EvHook hook.Shutdown (component.Comp c)));;
  n ← get;
  match masterServer n with
  | Some s =>
      emit (EvGracefulStop MasterServer);;
      modify (set_masterServer (Some (grpc.GracefulStop s)))
  | None => mret tt
  end.

Definition HandleRequest (_ : clusterpb.RequestMessage)
  : Go clusterpb.MemberHandleResponse := panic "implement me".

Definition HandleNotify (_ : clusterpb.NotifyMessage)
  : Go clusterpb.MemberHandleResponse := panic "implement me".

Definition HandlePush (_ : clusterpb.PushMessage)
  : Go clusterpb.MemberHandleResponse := panic "implement me".

Definition HandleResponse (_ : clusterpb.ResponseMessage)
  : Go clusterpb.MemberHandleResponse := panic "implement me".

Definition NewMember (req : clusterpb.NewMemberRequest)
  : Go clusterpb.NewMemberResponse :=
  on_handler (addRemoteService (clusterpb.nm_MemberInfo req));;
  mret clusterpb.Build_NewMemberResponse.
End Methods.

(** ** Running the model on concrete nodes *)

Definition comp (name : string) : component.CompWithOptions :=
  {| component.Comp := name; component.Opts := [] |}.

(** A world in which every call succeeds: registering a component adds a
    service of its name, every bind succeeds, and the master answers with
    itself and the caller. *)
Definition friendly : Env :=
  {| handler_register := λ h c _,
       inr {| h_pipeline := h_pipeline h;
              localServices := localServices h ++ [c];
              remoteServices := remoteServices h;
              h_rpcClient := h_rpcClient h |};
     net_Listen := λ _ _, None;
     getConnArray := λ _, None;
     master_Register := λ req,
       inr {| clusterpb.Members :=
                [ {| clusterpb.MemberType := "master";
                     clusterpb.MemberAddr := "127.0.0.1:9002";
                     clusterpb.Services := ["gate"] |};
                  clusterpb.req_MemberInfo req ] |} |}.

Definition abc : list component.CompWithOptions := [comp "A"; comp "B"; comp "C"].

Definition master0 : Node :=
  mkNode true "127.0.0.1:9000" "127.0.0.1:9001" ":3250" abc false "" "".

Definition member0 : Node :=
  mkNode false "127.0.0.1:9000" "127.0.0.1:9001" ":3250" abc false "" "".

(** A world with a stricter registry: a service name can be registered only
    once, a second component of the same name is refused. *)
Definition strict : Env :=
  {| handler_register := λ h c _,
       if bool_decide (c ∈ localServices h)
       then inl ("service already defined: " +:+ c)
       else inr {| h_pipeline := h_pipeline h;
                   localServices := localServices h ++ [c];
                   remoteServices := remoteServices h;
                   h_rpcClient := h_rpcClient h |};
     net_Listen := net_Listen friendly;
     getConnArray := getConnArray friendly;
     master_Register := master_Register friendly |}.

(** A world in which no master listens at the advertise address. *)
Definition no_master : Env :=
  {| handler_register := handler_register friendly;
     net_Listen := net_Listen friendly;
     getConnArray := λ _, Some "connection refused";
     master_Register := master_Register friendly |}.

(** A world in which the master refuses every registration. *)
Definition refusing_master : Env :=
  {| handler_register := handler_register friendly;
     net_Listen := net_Listen friendly;
     getConnArray := getConnArray friendly;
     master_Register := λ _, inl "registration refused" |}.

(** A master whose member address is left empty. *)
Definition master_no_member_addr : Node :=
  mkNode true "127.0.0.1:9000" "" ":3250" abc false "" "".

(** A master without an advertise address. *)
Definition master_no_advertise : Node :=
  mkNode true "" "127.0.0.1:9001" ":3250" abc false "" "".


(** A member whose member address has no port. *)
Definition member_noport : Node :=
  mkNode false "127.0.0.1:9000" "noport" ":3250" abc false "" "".

(** A websocket node with a certificate path but no key path. *)
Definition ws_cert_only : Node :=
  mkNode false "" "" ":3250" abc true "server.crt" "".

(** A new-member announcement. *)
Definition announce : clusterpb.NewMemberRequest :=
  {| clusterpb.nm_MemberInfo :=
       {| clusterpb.MemberType := "member";
          clusterpb.MemberAddr := "127.0.0.1:9003";
          clusterpb.Services := ["chat"; "room"] |} |}.

(** ** Vocabulary of the statements *)

(** The events of a registration loop, and of a hook loop, over [cs]. *)
Definition regs (cs : list component.CompWithOptions) : list Event :=
  (λ c, EvRegister (component.Comp c)) <$> cs.

Definition hooks (k : hook.t) (cs : list component.CompWithOptions) : list Event :=
  (λ c, EvHook k (component.Comp c)) <$> cs.

(** Hook calls and acceptor launches: the lifecycle events of a trace. *)
Definition is_lifecycle (e : Event) : bool := is_hook e || is_acceptor e.

(** The tail of a successful [Startup]: [Init] on every component, then
    [AfterInit] on every component, then the acceptor goroutine. *)
Definition launch (n : Node) : list Event :=
  hooks hook.Init (Components n) ++ hooks hook.AfterInit (Components n)
  ++ [EvGo (AcceptLoop (acceptor n))].

(** The two errors [node.go] builds itself are its configuration errors. *)
Definition config_error (n : Node) (e : error) : bool :=
  String.eqb e (errors.New "advertise address cannot be empty in master node")
  || String.eqb e (fmt.Errorf_member_address (MemberAddr n)).

(** The value of the guard of [initMember], as a pure function. *)
Definition bad_member_addr (addr : string) : bool :=
  String.eqb addr ""
  || negb (GoStrings.Contains addr ":")
  || String.eqb (default "" (head (GoStrings.SplitN addr ":" 2))) "".

Definition tcp (address : string) : net.Listener :=
  {| net.network := "tcp"; net.laddr := address |}.

(** The node once [n.cluster] and [n.handler] are set and the registration
    loop has left the registry [h1]. *)
Definition registered (n : Node) (h1 : LocalHandler) : Node :=
  set_handler (Some h1) (set_cluster (Some newCluster) n).

Definition self_member (n : Node) (h1 : LocalHandler) : Member :=
  {| isMaster := true;
     memberInfo :=
       {| clusterpb.MemberType := "master";
          clusterpb.MemberAddr := MemberAddr n;
          clusterpb.Services := LocalService h1 |} |}.

(** The node at the end of [initMaster]. *)
Definition master_final (n : Node) (h1 : LocalHandler) : Node :=
  set_handler (Some (handler_setRpcClient RPCClient h1))
    (set_cluster
       (Some {| members := [self_member n h1]; c_rpcClient := Some RPCClient |})
       (set_rpcClient (Some RPCClient)
          (set_memberServer
             (Some {| grpc.registered := [clusterpb.MemberService];
                      grpc.listeners := []; grpc.stopped := false |})
             (set_masterServer
                (Some {| grpc.registered := [clusterpb.MasterService];
                         grpc.listeners := [tcp (AdvertiseAddr n)];
                         grpc.stopped := false |})
                (registered n h1))))).

Definition member_request (n : Node) (h1 : LocalHandler) : clusterpb.RegisterRequest :=
  {| clusterpb.req_MemberInfo :=
       {| clusterpb.MemberType := "member";
          clusterpb.MemberAddr := MemberAddr n;
          clusterpb.Services := LocalService h1 |} |}.

(** The node of [initMember] once its server is launched and its client
    created, before the master is called. *)
Definition member_listening (n : Node) (h1 : LocalHandler) : Node :=
  set_rpcClient (Some RPCClient)
    (set_memberServer
       (Some {| grpc.registered := [clusterpb.MemberService];
                grpc.listeners := [tcp (MemberAddr n)];
                grpc.stopped := false |})
       (registered n h1)).

(** The node at the end of [initMember]. *)
Definition member_final (n : Node) (h1 : LocalHandler)
    (resp : clusterpb.RegisterResponse) : Node :=
  set_handler
    (Some (handler_setRpcClient RPCClient
             (initRemoteService (clusterpb.Members resp) h1)))
    (member_listening n h1).

(** A predicate on the three components of a run. *)
Definition sat {A} (P : Outcome A → Node → list Event → Prop)
    (x : Outcome A * Node * list Event) : Prop := P x.1.1 x.1.2 x.2.

(** ** The runs of [Startup]

    Every path through [Startup], with what decides it, what it returns, the
    node it leaves and the calls it has made. *)

Section Run.
Variable E : Env.
Variable n : Node.

Let cs := Components n.
Let adv := AdvertiseAddr n.
Let n0 := registered n (NewHandler (Pipeline n)).
Let bootstrap_member : list Event :=
  [EvCache; EvListen "tcp" (MemberAddr n);
   EvGo (ServeMember (tcp (MemberAddr n))); EvDial adv].

Inductive StartupRun : Outcome unit → Node → list Event → Prop :=
| SR_no_advertise :
    IsMaster n = true → adv = "" →
    StartupRun
      (Fail (errors.New "advertise address cannot be empty in master node"))
      n []
| SR_register_fails e h1 k :
    IsMaster n && String.eqb adv "" = false →
    k < length cs →
    range cs (register E) n0
      = (Fail e, registered n h1, regs (take (S k) cs)) →
    StartupRun (Fail e) (registered n h1) (regs (take (S k) cs))
| SR_master_listen_fails h1 err :
    IsMaster n = true → adv ≠ "" →
    range cs (register E) n0 = (Return tt, registered n h1, regs cs) →
    net_Listen E "tcp" adv = Some err →
    StartupRun (Fail err) (registered n h1)
      (regs cs ++ [EvCache; EvListen "tcp" adv])
| SR_master h1 :
    IsMaster n = true → adv ≠ "" →
    range cs (register E) n0 = (Return tt, registered n h1, regs cs) →
    net_Listen E "tcp" adv = None →
    StartupRun (Return tt) (master_final n h1)
      (regs cs
       ++ [EvCache; EvListen "tcp" adv; EvGo (ServeMaster (tcp adv))]
       ++ launch n)
| SR_member_invalid h1 :
    IsMaster n = false → adv ≠ "" →
    range cs (register E) n0 = (Return tt, registered n h1, regs cs) →
    bad_member_addr (MemberAddr n) = true →
    StartupRun (Fail (fmt.Errorf_member_address (MemberAddr n)))
      (registered n h1) (regs cs ++ [EvCache])
| SR_member_listen_fails h1 err :
    IsMaster n = false → adv ≠ "" →
    range cs (register E) n0 = (Return tt, registered n h1, regs cs) →
    bad_member_addr (MemberAddr n) = false →
    net_Listen E "tcp" (MemberAddr n) = Some err →
    StartupRun (Fail err) (registered n h1)
      (regs cs ++ [EvCache; EvListen "tcp" (MemberAddr n)])
| SR_member_dial_fails h1 err :
    IsMaster n = false → adv ≠ "" →
    range cs (register E) n0 = (Return tt, registered n h1, regs cs) →
    bad_member_addr (MemberAddr n) = false →
    net_Listen E "tcp" (MemberAddr n) = None →
    getConnArray E adv = Some err →
    StartupRun (Fail err) (member_listening n h1)
      (regs cs ++ bootstrap_member)
| SR_member_rpc_fails h1 err :
    IsMaster n = false → adv ≠ "" →
    range cs (register E) n0 = (Return tt, registered n h1, regs cs) →
    bad_member_addr (MemberAddr n) = false →
    net_Listen E "tcp" (MemberAddr n) = None →
    getConnArray E adv = None →
    master_Register E (member_request n h1) = inl err →
    StartupRun (Fail err) (member_listening n h1)
      (regs cs ++ bootstrap_member ++ [EvRegisterRPC (member_request n h1)])
| SR_member h1 resp :
    IsMaster n = false → adv ≠ "" →
    range cs (register E) n0 = (Return tt, registered n h1, regs cs) →
    bad_member_addr (MemberAddr n) = false →
    net_Listen E "tcp" (MemberAddr n) = None →
    getConnArray E adv = None →
    master_Register E (member_request n h1) = inr resp →
    StartupRun (Return tt) (member_final n h1 resp)
      (regs cs ++ bootstrap_member
       ++ [EvRegisterRPC (member_request n h1)] ++ launch n)
| SR_standalone h1 :
    IsMaster n = false → adv = "" →
    range cs (register E) n0 = (Return tt, registered n h1, regs cs) →
    StartupRun (Return tt) (registered n h1)
      (regs cs ++ [EvCache] ++ launch n).
End Run.

(** ** Vocabulary of the further properties *)

Definition is_register (e : Event) : bool :=
  match e with EvRegister _ => true | _ => false end.

Definition is_go (e : Event) : bool :=
  match e with EvGo _ => true | _ => false end.

(** The exported fields of [n'] are those of [n]. *)
Definition same_config (n n' : Node) : Prop :=
  IsMaster n' = IsMaster n
  ∧ AdvertiseAddr n' = AdvertiseAddr n
  ∧ MemberAddr n' = MemberAddr n
  ∧ ServerAddr n' = ServerAddr n
  ∧ Components n' = Components n
  ∧ IsWebsocket n' = IsWebsocket n
  ∧ TSLCertificate n' = TSLCertificate n
  ∧ TSLKey n' = TSLKey n
  ∧ Pipeline n' = Pipeline n.

(** [func (n *Node) Handler() *LocalHandler] *)
Definition Handler : Go (option LocalHandler) :=
  n ← get;
  mret (handler n).

(** A world in which no address can be bound. *)
Definition port_taken : Env :=
  {| handler_register := handler_register friendly;
     net_Listen := λ _ _, Some "address already in use";
     getConnArray := getConnArray friendly;
     master_Register := master_Register friendly |}.

(** ** The plain acceptor loop, [listenAndServe] *)

(** What one call of [listener.Accept()] gives. *)
Inductive AcceptResult :=
| Accepted (conn : string)
| AcceptFailed (err : error).

Inductive ServeEvent :=
| SvListen (network address : string)   (* net.Listen *)
| SvFatal (msg : string)                (* log.Fatal: logs, then exits *)
| SvPrintln (msg : string)              (* log.Println *)
| SvHandle (conn : string)              (* go n.handler.handle(conn) *)
| SvClose.                              (* the deferred listener.Close() *)

(** The loop has no exit: the function either ends the process in
    [log.Fatal] or is still accepting. *)
Inductive ServeStatus := Exited | Accepting.

(** The iterations of [for { conn, err := listener.Accept() ... }] for the
    answers that [Accept] gives, in order. *)
Fixpoint accept_loop (answers : list AcceptResult) : list ServeEvent :=
  match answers with
  | [] => []
  | AcceptFailed err :: answers' =>
      (* log.Println(err.Error()); continue *)
      SvPrintln err :: accept_loop answers'
  | Accepted conn :: answers' =>
      SvHandle conn :: accept_loop answers'
  end.

(** [func (n *Node) listenAndServe()], observed after [Accept] has answered
    [answers]. *)
Definition run_listenAndServe (E : Env) (n : Node)
    (answers : list AcceptResult) : ServeStatus * list ServeEvent :=
  match net_Listen E "tcp" (ServerAddr n) with
  | Some err => (Exited, [SvListen "tcp" (ServerAddr n); SvFatal err])
  | None => (Accepting, SvListen "tcp" (ServerAddr n) :: accept_loop answers)
  end.

Definition accepted_conns (answers : list AcceptResult) : list string :=
  omap (λ a, match a with Accepted c => Some c | AcceptFailed _ => None end)
    answers.

Definition accept_errors (answers : list AcceptResult) : list error :=
  omap (λ a, match a with AcceptFailed e => Some e | Accepted _ => None end)
    answers.

Definition handled (t : list ServeEvent) : list string :=
  omap (λ e, match e with SvHandle c => Some c | _ => None end) t.

Definition printed (t : list ServeEvent) : list string :=
  omap (λ e, match e with SvPrintln m => Some m | _ => None end) t.

Definition is_exit (e : ServeEvent) : bool :=
  match e with SvFatal _ | SvClose => true | _ => false end.

(** ** The pattern of the WebSocket endpoint *)

(** [strings.TrimPrefix(s, prefix)]. *)
Definition TrimPrefix (s prefix : string) : string :=
  if String.prefix prefix s
  then String.substring (String.length prefix)
         (String.length s - String.length prefix) s
  else s.

(** ["/"+strings.TrimPrefix(env.WSPath, "/")], the pattern both
    [listenAndServeWS] and [listenAndServeWSTLS] register. *)
Definition ws_pattern (WSPath : string) : string :=
  "/" +:+ TrimPrefix WSPath "/".

(** ** Vocabulary of the registration loop and of the address form *)

(** [accepted E h cs h']: the registry accepts the components [cs] one
    after the other, from the registry [h], and is [h'] at the end. *)
Inductive accepted (E : Env) :
  LocalHandler → list component.CompWithOptions → LocalHandler → Prop :=
| accepted_nil h : accepted E h [] h
| accepted_cons h c h' cs h'' :
    handler_register E h (component.Comp c) (component.Opts c) = inr h' →
    accepted E h' cs h'' →
    accepted E h (c :: cs) h''.

(** The form the claims call host:port, after their words: a non-empty
    host, a [":"], a non-empty port, and no other [":"]. *)
Definition host_port_form (addr : string) : bool :=
  match GoStrings.SplitN addr ":" 2 with
  | [host; port] =>
      negb (String.eqb host "") && negb (String.eqb port "")
      && negb (GoStrings.Contains port ":")
  | _ => false
  end.


(** Some gRPC server of the node is serving. *)
Definition a_server_is_running (n : Node) : bool :=
  match masterServer n with Some s => grpc.running s | None => false end
  || match memberServer n with Some s => grpc.running s | None => false end.

(** * Properties *)

(** ** The model on concrete inputs *)

Example SplitN_host_port :
  GoStrings.SplitN "127.0.0.1:9001" ":" 2 = ["127.0.0.1"; "9001"].
Proof. reflexivity. Qed.

Example SplitN_keeps_remainder :
  GoStrings.SplitN "a:b:c" ":" 2 = ["a"; "b:c"].
Proof. reflexivity. Qed.

Example SplitN_no_separator : GoStrings.SplitN "noport" ":" 2 = ["noport"].
Proof. reflexivity. Qed.

(** What the guard of [initMember] rejects and what it lets through. *)
Example bad_member_addr_examples :
  bad_member_addr "" = true
  ∧ bad_member_addr "noport" = true
  ∧ bad_member_addr ":9001" = true
  ∧ bad_member_addr "127.0.0.1:9001" = false
  ∧ bad_member_addr "host:" = false
  ∧ bad_member_addr "a:b:c" = false.
Proof. repeat split. Qed.

Example master_run :
  result (Startup friendly) master0 = Return tt
  ∧ trace (Startup friendly) master0
    = [EvRegister "A"; EvRegister "B"; EvRegister "C"; EvCache;
       EvListen "tcp" "127.0.0.1:9000";
       EvGo (ServeMaster (tcp "127.0.0.1:9000"));
       EvHook hook.Init "A"; EvHook hook.Init "B"; EvHook hook.Init "C";
       EvHook hook.AfterInit "A"; EvHook hook.AfterInit "B";
       EvHook hook.AfterInit "C"; EvGo (AcceptLoop listenAndServe)].
Proof. split; reflexivity. Qed.

Example member_without_master_run :
  result (Startup no_master) member0 = Fail "connection refused"
  ∧ trace (Startup no_master) member0
    = [EvRegister "A"; EvRegister "B"; EvRegister "C"; EvCache;
       EvListen "tcp" "127.0.0.1:9001";
       EvGo (ServeMember (tcp "127.0.0.1:9001"));
       EvDial "127.0.0.1:9000"].
Proof. split; reflexivity. Qed.

Example master_no_advertise_run :
  Startup friendly master_no_advertise
  = (Fail "advertise address cannot be empty in master node",
     master_no_advertise, []).
Proof. reflexivity. Qed.

Example member_noport_run :
  result (Startup friendly) member_noport
  = Fail "member address (noport) invalid in cluster mode"
  ∧ trace (Startup friendly) member_noport
    = [EvRegister "A"; EvRegister "B"; EvRegister "C"; EvCache].
Proof. split; reflexivity. Qed.

Example master_then_shutdown :
  trace Shutdown (final (Startup friendly) master0)
  = [EvHook hook.BeforeShutdown "C"; EvHook hook.BeforeShutdown "B";
     EvHook hook.BeforeShutdown "A"; EvHook hook.Shutdown "C";
     EvHook hook.Shutdown "B"; EvHook hook.Shutdown "A";
     EvGracefulStop MasterServer].
Proof. reflexivity. Qed.

(** ** Stepping through the monad *)

Lemma bind_run {A B} (m : Go A) (f : A → Go B) n :
  (m ≫= f) n =
  match m n with
  | (Return a, n', t) => match f a n' with (r, n'', t') => (r, n'', t ++ t') end
  | (Fail e, n', t) => (Fail e, n', t)
  | (Panic msg, n', t) => (Panic msg, n', t)
  end.
Proof. reflexivity. Qed.

Ltac go_red :=
  repeat first
    [ rewrite bind_run
    | progress cbn [mret Go_ret get modify emit fail panic deref app
                    set_cluster set_handler set_masterServer set_memberServer
                    set_rpcClient cluster handler masterServer memberServer
                    rpcClient IsMaster AdvertiseAddr MemberAddr Components
                    Pipeline] ].

Lemma set_handler_same n h : handler n = Some h → set_handler (Some h) n = n.
Proof. destruct n; cbn; intros ->; reflexivity. Qed.

(** ** The loops *)

Lemma range_emit {A} (f : A → Event) xs n :
  range xs (λ x, emit (f x)) n = (Return tt, n, f <$> xs).
Proof.
  induction xs as [|x xs IH]; [done|].
  cbn [range]. rewrite bind_run. cbn [emit]. by rewrite IH.
Qed.

(** The countdown loop visits the first [k] entries from the last to the
    first, and never indexes out of range. *)
Lemma downfrom_emit (f : component.CompWithOptions → Event) cs k n :
  k ≤ length cs →
  downfrom k (λ i, c ← at_index cs i; emit (f c)) n
  = (Return tt, n, f <$> reverse (take k cs)).
Proof.
  induction k as [|k IH]; intros Hk; [done|].
  destruct (lookup_lt_is_Some_2 cs k) as [c Hc]; [lia|].
  cbn [downfrom]. rewrite !bind_run. unfold at_index at 1. rewrite Hc.
  cbn -[at_index downfrom]. rewrite IH by lia.
  by rewrite (take_S_r _ _ _ Hc), reverse_app.
Qed.

Section Runs.
Variable E : Env.

Lemma register_run c n h :
  handler n = Some h →
  register E c n =
  match handler_register E h (component.Comp c) (component.Opts c) with
  | inl err => (Fail err, n, [EvRegister (component.Comp c)])
  | inr h' =>
      (Return tt, set_handler (Some h') n, [EvRegister (component.Comp c)])
  end.
Proof.
  intros Hh. unfold register. go_red. rewrite Hh. go_red.
  destruct (handler_register _ _ _ _); reflexivity.
Qed.

(** The registration loop either registers every component or stops at
    the first one that is refused; it touches nothing but the registry. *)
Lemma range_register cs : ∀ n h,
  handler n = Some h →
  (∃ h1, range cs (register E) n
         = (Return tt, set_handler (Some h1) n, regs cs))
  ∨ (∃ e h1 k, k < length cs
       ∧ range cs (register E) n
         = (Fail e, set_handler (Some h1) n, regs (take (S k) cs))).
Proof.
  induction cs as [|c cs IH]; intros n h Hh.
  - left. exists h. cbn. by rewrite set_handler_same.
  - cbn [range]. rewrite bind_run, (register_run _ _ _ Hh).
    destruct (handler_register _ _ _ _) as [err|h'].
    + right. exists err, h, 0. split; [cbn; lia|].
      by rewrite set_handler_same.
    + destruct (IH (set_handler (Some h') n) h' eq_refl)
        as [[h1 ->]|(e & h1 & k & Hk & ->)].
      * left. by exists h1.
      * right. exists e, h1, (S k). split; [cbn; lia|done].
Qed.

(** An error returned by the loop is the answer of the registry to one of
    the components. *)
Lemma range_register_error cs : ∀ n h e n' t,
  handler n = Some h →
  range cs (register E) n = (Fail e, n', t) →
  ∃ h' c, c ∈ cs
    ∧ handler_register E h' (component.Comp c) (component.Opts c) = inl e.
Proof.
  induction cs as [|c cs IH]; intros n h e n' t Hh; [done|].
  cbn [range]. rewrite bind_run, (register_run _ _ _ Hh).
  destruct (handler_register _ _ _ _) as [err|h'] eqn:Hreg.
  - intros [= <- _ _]. exists h, c. split; [left|done].
  - destruct (range cs (register E) _) as [[r n''] t'] eqn:Hrest.
    intros [= -> _ _].
    destruct (IH (set_handler (Some h') n) h' _ _ _ eq_refl Hrest) as (h'' & c' & Hin & Herr).
    exists h'', c'. split; [by right|done].
Qed.

Lemma memberAddr_invalid_run addr n :
  memberAddr_invalid addr n = (Return (bad_member_addr addr), n, []).
Proof.
  unfold memberAddr_invalid, bad_member_addr.
  destruct (String.eqb addr ""); [done|].
  destruct (GoStrings.Contains addr ":"); [|done].
  cbn [negb orb]. go_red.
  cbn [GoStrings.SplitN]. destruct (GoStrings.Index addr ":"); reflexivity.
Qed.

Variable n : Node.

Lemma launch_run n' :
  (range (Components n)
     (λ c, emit (EvHook hook.Init (component.Comp c)));;
   range (Components n)
     (λ c, emit (EvHook hook.AfterInit (component.Comp c)));;
   n1 ← get;
   emit (EvGo (AcceptLoop (acceptor n1)));;
   mret tt) n'
  = (Return tt, n',
     hooks hook.Init (Components n) ++ hooks hook.AfterInit (Components n)
     ++ [EvGo (AcceptLoop (acceptor n'))]).
Proof.
  rewrite bind_run, range_emit, bind_run, range_emit. go_red. reflexivity.
Qed.

Lemma initMaster_run h1 :
  initMaster E (registered n h1) =
  match net_Listen E "tcp" (AdvertiseAddr n) with
  | Some err =>
      (Fail err, registered n h1, [EvListen "tcp" (AdvertiseAddr n)])
  | None =>
      (Return tt, master_final n h1,
       [EvListen "tcp" (AdvertiseAddr n);
        EvGo (ServeMaster (tcp (AdvertiseAddr n)))])
  end.
Proof.
  unfold initMaster, Listen, on_masterServer, on_memberServer, on_cluster,
    on_handler, registered.
  go_red. destruct (net_Listen E "tcp" (AdvertiseAddr n)); go_red; reflexivity.
Qed.

Lemma initMember_run h1 :
  initMember E (registered n h1) =
  if bad_member_addr (MemberAddr n) then
    (Fail (fmt.Errorf_member_address (MemberAddr n)), registered n h1, [])
  else
    match net_Listen E "tcp" (MemberAddr n) with
    | Some err =>
        (Fail err, registered n h1, [EvListen "tcp" (MemberAddr n)])
    | None =>
        let pre := [EvListen "tcp" (MemberAddr n);
                    EvGo (ServeMember (tcp (MemberAddr n)));
                    EvDial (AdvertiseAddr n)] in
        match getConnArray E (AdvertiseAddr n) with
        | Some err => (Fail err, member_listening n h1, pre)
        | None =>
            match master_Register E (member_request n h1) with
            | inl err =>
                (Fail err, member_listening n h1,
                 pre ++ [EvRegisterRPC (member_request n h1)])
            | inr resp =>
                (Return tt, member_final n h1 resp,
                 pre ++ [EvRegisterRPC (member_request n h1)])
            end
        end
    end.
Proof.
  unfold initMember, Listen, on_memberServer, on_handler, registered.
  go_red. rewrite memberAddr_invalid_run. go_red.
  destruct (bad_member_addr (MemberAddr n)); [reflexivity|].
  go_red. destruct (net_Listen E "tcp" (MemberAddr n)); [reflexivity|].
  go_red. destruct (getConnArray E (AdvertiseAddr n)); [reflexivity|].
  go_red.
  change {| clusterpb.req_MemberInfo := _ |} with (member_request n h1).
  destruct (master_Register E (member_request n h1)); go_red; reflexivity.
Qed.

(** Every run of [Startup] is one of the ten runs of [StartupRun]. *)
Lemma Startup_run : sat (StartupRun E n) (Startup E n).
Proof.
  unfold Startup. go_red.
  destruct (IsMaster n && String.eqb (AdvertiseAddr n) "") eqn:Hguard.
  { apply andb_prop in Hguard as [HM HA%String.eqb_eq]. cbn. by constructor. }
  go_red.
  change (set_handler _ (set_cluster _ n))
    with (registered n (NewHandler (Pipeline n))).
  destruct (range_register (Components n)
              (registered n (NewHandler (Pipeline n))) _ eq_refl)
    as [[h1 Hreg]|(e & h1 & k & Hk & Hreg)];
    change (set_handler (Some h1) _) with (registered n h1) in Hreg;
    rewrite Hreg.
  2:{ cbn. by eapply SR_register_fails. }
  unfold cache. go_red.
  destruct (IsMaster n) eqn:HM.
  - assert (AdvertiseAddr n ≠ "") as HA
        by (intros Heq; rewrite Heq in Hguard; done).
    rewrite initMaster_run.
    destruct (net_Listen E "tcp" (AdvertiseAddr n)) eqn:HL.
    + by eapply SR_master_listen_fails.
    + cbv beta iota. rewrite launch_run. by eapply SR_master.
  - destruct (String.eqb (AdvertiseAddr n) "") eqn:HA; cbn [negb].
    + apply String.eqb_eq in HA. cbn [mret Go_ret]. cbv beta iota.
      rewrite launch_run. by eapply SR_standalone.
    + apply String.eqb_neq in HA. rewrite initMember_run.
      destruct (bad_member_addr (MemberAddr n)) eqn:Hbad.
      { by eapply SR_member_invalid. }
      destruct (net_Listen E "tcp" (MemberAddr n)) eqn:HL.
      { by eapply SR_member_listen_fails. }
      cbn zeta. destruct (getConnArray E (AdvertiseAddr n)) eqn:HD.
      { by eapply SR_member_dial_fails. }
      destruct (master_Register E (member_request n h1)) eqn:HR.
      { by eapply SR_member_rpc_fails. }
      cbv beta iota. rewrite launch_run. by eapply SR_member.
Qed.

(** [Shutdown] in closed form. *)
Lemma Shutdown_run :
  Shutdown n =
  (Return tt,
   match masterServer n with
   | Some s => set_masterServer (Some (grpc.GracefulStop s)) n
   | None => n
   end,
   hooks hook.BeforeShutdown (reverse (Components n))
   ++ hooks hook.Shutdown (reverse (Components n))
   ++ match masterServer n with
      | Some _ => [EvGracefulStop MasterServer]
      | None => []
      end).
Proof.
  unfold Shutdown. go_red.
  rewrite downfrom_emit by done. cbv beta iota.
  rewrite bind_run, downfrom_emit by done. go_red.
  rewrite firstn_all.
  destruct (masterServer n); go_red; reflexivity.
Qed.
End Runs.

(** ** Projections of traces *)

Lemma filter_regs p cs :
  (∀ c, p (EvRegister c) = false) → List.filter p (regs cs) = [].
Proof.
  intros Hp. unfold regs. induction cs as [|c cs IH]; [done|].
  cbn. by rewrite Hp.
Qed.

Lemma filter_hooks_out p k cs :
  (∀ c, p (EvHook k c) = false) → List.filter p (hooks k cs) = [].
Proof.
  intros Hp. unfold hooks. induction cs as [|c cs IH]; [done|].
  cbn. by rewrite Hp.
Qed.

Lemma filter_hooks_in p k cs :
  (∀ c, p (EvHook k c) = true) → List.filter p (hooks k cs) = hooks k cs.
Proof.
  intros Hp. unfold hooks. induction cs as [|c cs IH]; [done|].
  cbn. by rewrite Hp, IH.
Qed.

Lemma Startup_cases E n :
  StartupRun E n (result (Startup E) n) (final (Startup E) n)
    (trace (Startup E) n).
Proof. apply Startup_run. Qed.

Ltac startup_cases E n :=
  let Hrun := fresh "Hrun" in
  pose proof (Startup_cases E n) as Hrun;
  unfold result, final, trace in *;
  destruct (Startup E n) as [[? ?] ?];
  cbn [fst snd] in *;
  inversion Hrun; subst; clear Hrun.

Ltac trace_filter :=
  unfold launch;
  rewrite ?List.filter_app;
  rewrite ?filter_regs by done;
  rewrite ?filter_hooks_out by done;
  rewrite ?filter_hooks_in by done;
  cbn [List.filter is_network is_hook is_acceptor is_listen is_stop
       is_lifecycle orb app].

(** ** The registration loop, by the answers of the registry *)

Section Registration.
Variable E : Env.

(** The registration loop, by the answers of the registry: either it
    accepts every component, or it accepts the first [j] and refuses the
    next, where the loop stops with the refusal. *)
Lemma range_register_chain cs : ∀ n h,
  handler n = Some h →
  (∃ h1, accepted E h cs h1
         ∧ range cs (register E) n
           = (Return tt, set_handler (Some h1) n, regs cs))
  ∨ (∃ j c hj e,
       cs !! j = Some c
       ∧ accepted E h (take j cs) hj
       ∧ handler_register E hj (component.Comp c) (component.Opts c) = inl e
       ∧ range cs (register E) n
         = (Fail e, set_handler (Some hj) n, regs (take (S j) cs))).
Proof.
  induction cs as [|c cs IH]; intros n h Hh.
  - left. exists h. split; [constructor|]. cbn. by rewrite set_handler_same.
  - cbn [range]. rewrite bind_run, (register_run _ _ _ _ Hh).
    destruct (handler_register _ _ _ _) as [err|h'] eqn:Hreg.
    + right. exists 0, c, h, err. split; [done|]. split; [constructor|].
      split; [done|]. by rewrite set_handler_same.
    + destruct (IH (set_handler (Some h') n) h' eq_refl)
        as [(h1 & Hacc & ->)|(j & c' & hj & e & Hc' & Hacc & He & ->)].
      * left. exists h1. split; [by econstructor|done].
      * right. exists (S j), c', hj, e. split; [done|].
        split; [by econstructor|]. by split.
Qed.

Lemma accepted_run cs h h1 :
  accepted E h cs h1 →
  ∀ n, handler n = Some h →
  range cs (register E) n = (Return tt, set_handler (Some h1) n, regs cs).
Proof.
  induction 1 as [h|h c h' cs h'' Hreg Hacc IH]; intros n Hh.
  - cbn. by rewrite set_handler_same.
  - cbn [range]. rewrite bind_run, (register_run _ _ _ _ Hh), Hreg.
    by rewrite (IH (set_handler (Some h') n) eq_refl).
Qed.

(** What the loop of [Startup] returned tells what the registry answered. *)
Lemma registered_accepted n h1 :
  range (Components n) (register E) (registered n (NewHandler (Pipeline n)))
  = (Return tt, registered n h1, regs (Components n)) →
  accepted E (NewHandler (Pipeline n)) (Components n) h1.
Proof.
  intros Hrun.
  destruct (range_register_chain (Components n)
              (registered n (NewHandler (Pipeline n))) _ eq_refl)
    as [(h2 & Hacc & Hrun2)|(j & c & hj & e & _ & _ & _ & Hrun2)];
    rewrite Hrun in Hrun2; [|done].
  by injection Hrun2 as ->.
Qed.

Lemma accepted_registered n h1 :
  accepted E (NewHandler (Pipeline n)) (Components n) h1 →
  range (Components n) (register E) (registered n (NewHandler (Pipeline n)))
  = (Return tt, registered n h1, regs (Components n)).
Proof. intros Hacc. by apply (accepted_run _ _ _ Hacc). Qed.

Lemma refused_accepted n e h1 k :
  range (Components n) (register E) (registered n (NewHandler (Pipeline n)))
  = (Fail e, registered n h1, regs (take (S k) (Components n))) →
  k < length (Components n) →
  ∃ c,
    Components n !! k = Some c
    ∧ accepted E (NewHandler (Pipeline n)) (take k (Components n)) h1
    ∧ handler_register E h1 (component.Comp c) (component.Opts c) = inl e.
Proof.
  intros Hrun Hk.
  destruct (range_register_chain (Components n)
              (registered n (NewHandler (Pipeline n))) _ eq_refl)
    as [(h2 & _ & Hrun2)|(j & c & hj & e' & Hc & Hacc & He & Hrun2)];
    rewrite Hrun in Hrun2; [done|].
  injection Hrun2 as -> -> Ht.
  apply (f_equal length) in Ht. unfold regs in Ht.
  rewrite !length_fmap, !length_take in Ht.
  apply lookup_lt_Some in Hc as Hj.
  assert (k = j) as -> by lia.
  by exists c.
Qed.
End Registration.

(** ** Membership in the traces *)

Lemma elem_of_regs e cs : e ∈ regs cs → is_register e = true.
Proof.
  unfold regs. intros (c & -> & _)%list_elem_of_fmap. reflexivity.
Qed.

Lemma elem_of_hooks e k cs : e ∈ hooks k cs → is_hook e = true.
Proof.
  unfold hooks. intros (c & -> & _)%list_elem_of_fmap. reflexivity.
Qed.

(** Decomposes a membership in a trace of [StartupRun] into its cases and
    closes those that name another event. *)
Ltac trace_elem H :=
  unfold launch in H;
  repeat (rewrite elem_of_app in H);
  rewrite ?elem_of_cons, ?elem_of_nil in H;
  repeat match type of H with
    | _ ∨ _ => destruct H as [H|H]
    end;
  try (apply elem_of_regs in H; discriminate H);
  try (apply elem_of_hooks in H; discriminate H);
  try discriminate H;
  try contradiction.

(** A well-formed host:port is never rejected by the guard of [initMember]:
    what the guard rejects is not of that form. *)
Lemma host_port_form_passes_guard addr :
  host_port_form addr = true → bad_member_addr addr = false.
Proof.
  unfold host_port_form, bad_member_addr, GoStrings.Contains.
  cbn [GoStrings.SplitN].
  destruct (GoStrings.Index addr ":") as [i|] eqn:Hi; [|done].
  cbn [head default negb orb]. unfold id.
  intros [[Hhost _]%andb_prop _]%andb_prop.
  apply negb_true_iff in Hhost. rewrite Hhost, !orb_false_r.
  apply String.eqb_neq. intros ->. apply String.eqb_neq in Hhost.
  by destruct i.
Qed.

(** ** The claims *)

(** C1. After a successful [Startup] of a master, the member list of the
    topology contains an entry with [isMaster = true], member type
    ["master"] and the configured [MemberAddr]; it got there by the append
    of [initMaster]: the only network call of the run is the bind of the
    advertise address, no dial and no registration RPC. *)
Theorem master_self_entry E n :
  IsMaster n = true →
  result (Startup E) n = Return tt →
  ∃ c m,
    cluster (final (Startup E) n) = Some c
    ∧ m ∈ members c
    ∧ isMaster m = true
    ∧ clusterpb.MemberType (memberInfo m) = "master"
    ∧ clusterpb.MemberAddr (memberInfo m) = MemberAddr n
    ∧ List.filter is_network (trace (Startup E) n)
      = [EvListen "tcp" (AdvertiseAddr n)].
Proof.
  intros HM Hres. startup_cases E n; try congruence.
  eexists _, (self_member n h1). split; [reflexivity|].
  split; [by left|]. repeat split. by trace_filter.
Qed.

(** C1 at the master [master0] in the friendly world. *)
Lemma master_self_entry_witness :
  IsMaster master0 = true
  ∧ result (Startup friendly) master0 = Return tt
  ∧ ∃ c m,
      cluster (final (Startup friendly) master0) = Some c
      ∧ m ∈ members c
      ∧ isMaster m = true
      ∧ clusterpb.MemberType (memberInfo m) = "master"
      ∧ clusterpb.MemberAddr (memberInfo m) = "127.0.0.1:9001"
      ∧ List.filter is_network (trace (Startup friendly) master0)
        = [EvListen "tcp" "127.0.0.1:9000"].
Proof.
  split; [reflexivity|]. split; [reflexivity|].
  apply (master_self_entry friendly master0); reflexivity.
Defined.

(** [Startup] leaves the configuration of the node as it was. *)
Lemma Startup_Components E n :
  Components (final (Startup E) n) = Components n.
Proof. startup_cases E n; reflexivity. Qed.

(** C2. In a successful [Startup] the hook calls and the acceptor launch
    are, in this order: [Init] on every component in registration order,
    [AfterInit] on every component in registration order, the launch of the
    acceptor.  [Shutdown] of the started node calls [BeforeShutdown] on
    every component in reverse registration order, then [Shutdown] on every
    component in reverse registration order. *)
Theorem hook_ordering E n :
  result (Startup E) n = Return tt →
  List.filter is_lifecycle (trace (Startup E) n)
  = hooks hook.Init (Components n) ++ hooks hook.AfterInit (Components n)
    ++ [EvGo (AcceptLoop (acceptor n))]
  ∧ result Shutdown (final (Startup E) n) = Return tt
  ∧ List.filter is_hook (trace Shutdown (final (Startup E) n))
    = hooks hook.BeforeShutdown (reverse (Components n))
      ++ hooks hook.Shutdown (reverse (Components n)).
Proof.
  intros Hres.
  assert (∀ n', Components n' = Components n →
            result Shutdown n' = Return tt
            ∧ List.filter is_hook (trace Shutdown n')
              = hooks hook.BeforeShutdown (reverse (Components n))
                ++ hooks hook.Shutdown (reverse (Components n))) as Hdown.
  { intros n' Hcs. unfold result, trace. rewrite Shutdown_run, Hcs.
    split; [reflexivity|]. cbn [snd]. trace_filter.
    destruct (masterServer n'); cbn; by rewrite ?app_nil_r. }
  split; [|apply Hdown, Startup_Components].
  clear Hdown. startup_cases E n; try congruence; by trace_filter.
Qed.

(** C2 for the components [A; B; C]. *)
Lemma hook_ordering_witness :
  result (Startup friendly) master0 = Return tt
  ∧ List.filter is_lifecycle (trace (Startup friendly) master0)
    = [EvHook hook.Init "A"; EvHook hook.Init "B"; EvHook hook.Init "C";
       EvHook hook.AfterInit "A"; EvHook hook.AfterInit "B";
       EvHook hook.AfterInit "C"; EvGo (AcceptLoop listenAndServe)]
  ∧ result Shutdown (final (Startup friendly) master0) = Return tt
  ∧ List.filter is_hook (trace Shutdown (final (Startup friendly) master0))
    = [EvHook hook.BeforeShutdown "C"; EvHook hook.BeforeShutdown "B";
       EvHook hook.BeforeShutdown "A"; EvHook hook.Shutdown "C";
       EvHook hook.Shutdown "B"; EvHook hook.Shutdown "A"].
Proof.
  split; [reflexivity|].
  apply (hook_ordering friendly master0). reflexivity.
Defined.


(** A member whose address is rejected by the guard of [initMember] does not
    start and has not touched the network. *)
Lemma Startup_bad_member E n :
  IsMaster n = false →
  AdvertiseAddr n ≠ "" →
  bad_member_addr (MemberAddr n) = true →
  ∃ e,
    result (Startup E) n = Fail e
    ∧ List.filter is_network (trace (Startup E) n) = []
    ∧ (config_error n e = true
       ∨ ∃ h c, c ∈ Components n
           ∧ handler_register E h (component.Comp c) (component.Opts c)
             = inl e).
Proof.
  intros HM HA Hbad. startup_cases E n; try congruence.
  - (* a component is refused before the bootstrap *)
    eexists. split; [reflexivity|]. split; [by trace_filter|].
    right. eapply range_register_error; [|eassumption]. reflexivity.
  - (* the member address is rejected *)
    eexists. split; [reflexivity|]. split; [by trace_filter|].
    left. unfold config_error. rewrite String.eqb_refl. apply orb_true_r.
Qed.

(** A master without an advertise address is refused at once. *)
Lemma Startup_no_advertise E n :
  IsMaster n = true →
  AdvertiseAddr n = "" →
  Startup E n
  = (Fail (errors.New "advertise address cannot be empty in master node"),
     n, []).
Proof.
  intros HM HA. unfold Startup. go_red. by rewrite HM, HA.
Qed.



(** C4 as stated fails: a master whose member address is empty starts. *)
Lemma master_member_addr_counterexample :
  IsMaster master_no_member_addr = true
  ∧ bad_member_addr (MemberAddr master_no_member_addr) = true
  ∧ result (Startup friendly) master_no_member_addr = Return tt.
Proof. repeat split. Qed.

(** C4, amended.  With a non-empty advertise address: a member whose
    member address is rejected by the guard of [initMember] does not
    start; a master starts exactly when the registry accepts each of its
    components and the advertise address can be bound, whatever its member
    address. *)
Theorem member_addr_checked_for_member_only E n :
  AdvertiseAddr n ≠ "" →
  (IsMaster n = false →
   bad_member_addr (MemberAddr n) = true →
   ∃ e, result (Startup E) n = Fail e)
  ∧ (IsMaster n = true →
     (result (Startup E) n = Return tt
      ↔ (∃ h1, accepted E (NewHandler (Pipeline n)) (Components n) h1)
        ∧ net_Listen E "tcp" (AdvertiseAddr n) = None)).
Proof.
  intros HA. split.
  - intros HM Hbad.
    destruct (Startup_bad_member E n HM HA Hbad) as (e & He & _).
    by exists e.
  - intros HM. split.
    + intros Hres. startup_cases E n; try congruence.
      split; [|done]. eexists. by eapply registered_accepted.
    + intros [[h1 Hacc%accepted_registered] HL].
      startup_cases E n; congruence.
Qed.

(** C4 amended, at the member with address ["noport"] and, in the strict
    world, at the master with an empty member address. *)
Lemma member_addr_checked_for_member_only_witness :
  (∃ e, result (Startup friendly) member_noport = Fail e)
  ∧ bad_member_addr (MemberAddr master_no_member_addr) = true
  ∧ result (Startup strict) master_no_member_addr = Return tt.
Proof.
  split; [|split; [reflexivity|]].
  - destruct (member_addr_checked_for_member_only friendly member_noport)
      as [Hmember _]; [discriminate|].
    apply Hmember; reflexivity.
  - destruct (member_addr_checked_for_member_only strict
                master_no_member_addr) as [_ Hmaster]; [discriminate|].
    apply Hmaster; [reflexivity|]. split; [|reflexivity].
    eexists. repeat (econstructor; [reflexivity|]). constructor.
Defined.

(** C5 as stated fails: when the master refuses the registration,
    [Startup] returns the error, but the node is not left unstarted: its
    member server is serving. *)
Lemma node_not_started_counterexample :
  IsMaster member0 = false
  ∧ AdvertiseAddr member0 ≠ ""
  ∧ master_Register refusing_master (member_request member0
      {| h_pipeline := ""; localServices := ["A"; "B"; "C"];
         remoteServices := ∅; h_rpcClient := None |})
    = inl "registration refused"
  ∧ result (Startup refusing_master) member0 = Fail "registration refused"
  ∧ a_server_is_running (final (Startup refusing_master) member0) = true.
Proof.
  split; [reflexivity|]. split; [discriminate|]. repeat split.
Qed.

(** C5, amended.  On a member, when the dial of the master made by the run
    fails, or the registration call made by the run is refused, [Startup]
    returns that error, calls no [Init] or [AfterInit] hook and launches no
    acceptor; the member server launched before the dial is still serving
    on the member address. *)
Theorem registration_failure_aborts E n e :
  IsMaster n = false →
  AdvertiseAddr n ≠ "" →
  (EvDial (AdvertiseAddr n) ∈ trace (Startup E) n
   ∧ getConnArray E (AdvertiseAddr n) = Some e)
  ∨ (∃ req, EvRegisterRPC req ∈ trace (Startup E) n
            ∧ master_Register E req = inl e) →
  result (Startup E) n = Fail e
  ∧ List.filter is_lifecycle (trace (Startup E) n) = []
  ∧ ∃ s, memberServer (final (Startup E) n) = Some s
         ∧ grpc.listeners s = [tcp (MemberAddr n)]
         ∧ grpc.running s = true.
Proof.
  intros HM HA Hfail. startup_cases E n; try congruence.
  all: destruct Hfail as [[Hin Hd]|(req & Hin & Hr)]; trace_elem Hin.
  all: try congruence.
  - (* the dial fails *)
    split; [congruence|]. split; [by trace_filter|].
    eexists. by repeat split.
  - (* the master refuses *)
    injection Hin as ->.
    split; [congruence|]. split; [by trace_filter|].
    eexists. by repeat split.
Qed.

(** C5 amended, at the member [member0] facing a master that refuses it. *)
Lemma registration_failure_aborts_witness :
  IsMaster member0 = false
  ∧ AdvertiseAddr member0 ≠ ""
  ∧ result (Startup refusing_master) member0 = Fail "registration refused"
  ∧ List.filter is_lifecycle (trace (Startup refusing_master) member0) = []
  ∧ ∃ s, memberServer (final (Startup refusing_master) member0) = Some s
         ∧ grpc.listeners s = [tcp (MemberAddr member0)]
         ∧ grpc.running s = true.
Proof.
  split; [reflexivity|]. split; [discriminate|].
  apply (registration_failure_aborts refusing_master member0).
  - reflexivity.
  - discriminate.
  - right.
    exists (member_request member0
              {| h_pipeline := ""; localServices := ["A"; "B"; "C"];
                 remoteServices := ∅; h_rpcClient := None |}).
    split; [|reflexivity].
    apply list_elem_of_In. vm_compute. repeat first [left; reflexivity|right].
Defined.

(** C6 is not what [initMaster] does: a successful [Startup] of a master
    binds one listener, on the advertise address; its member server is
    created and registered but no [Serve] is launched on it, so it is not
    reachable. *)
Theorem master_opens_one_listener E n :
  IsMaster n = true →
  result (Startup E) n = Return tt →
  List.filter is_listen (trace (Startup E) n)
  = [EvListen "tcp" (AdvertiseAddr n)]
  ∧ ∃ s, memberServer (final (Startup E) n) = Some s
      ∧ grpc.listeners s = []
      ∧ grpc.running s = false.
Proof.
  intros HM Hres. startup_cases E n; try congruence.
  split; [by trace_filter|]. eexists. by split; [reflexivity|].
Qed.

(** C6 at the master [master0], whose member address differs from its
    advertise address. *)
Lemma master_opens_one_listener_witness :
  IsMaster master0 = true
  ∧ result (Startup friendly) master0 = Return tt
  ∧ MemberAddr master0 = "127.0.0.1:9001"
  ∧ List.filter is_listen (trace (Startup friendly) master0)
    = [EvListen "tcp" "127.0.0.1:9000"]
  ∧ ∃ s, memberServer (final (Startup friendly) master0) = Some s
      ∧ grpc.listeners s = []
      ∧ grpc.running s = false.
Proof.
  split; [reflexivity|]. split; [reflexivity|]. split; [reflexivity|].
  apply (master_opens_one_listener friendly master0); reflexivity.
Defined.

(** C7 as stated fails: with a certificate path and no key path, the
    acceptor launched is the TLS one. *)
Lemma tls_selection_counterexample :
  result (Startup friendly) ws_cert_only = Return tt
  ∧ List.filter is_acceptor (trace (Startup friendly) ws_cert_only)
    = [EvGo (AcceptLoop listenAndServeWSTLS)]
  ∧ TSLKey ws_cert_only = "".
Proof. repeat split. Qed.

(** C7, amended.  A successful [Startup] launches exactly one acceptor,
    chosen by [IsWebsocket] and by [TSLCertificate] alone: the plain socket
    acceptor when [IsWebsocket] is false, the WebSocket acceptor when it is
    true and the certificate path is empty, the WebSocket-over-TLS acceptor
    when it is true and the certificate path is not empty. *)
Theorem acceptor_selection E n :
  result (Startup E) n = Return tt →
  List.filter is_acceptor (trace (Startup E) n)
  = [EvGo (AcceptLoop (acceptor n))]
  ∧ (IsWebsocket n = false → acceptor n = listenAndServe)
  ∧ (IsWebsocket n = true → TSLCertificate n = "" →
     acceptor n = listenAndServeWS)
  ∧ (IsWebsocket n = true → TSLCertificate n ≠ "" →
     acceptor n = listenAndServeWSTLS).
Proof.
  intros Hres. split.
  { startup_cases E n; try congruence; by trace_filter. }
  unfold acceptor. repeat split.
  - by intros ->.
  - by intros -> ->.
  - intros -> Hcert. destruct (TSLCertificate n); [done|reflexivity].
Qed.

(** C7 amended, at a websocket node with a certificate and at [master0]. *)
Lemma acceptor_selection_witness :
  result (Startup friendly) ws_cert_only = Return tt
  ∧ List.filter is_acceptor (trace (Startup friendly) ws_cert_only)
    = [EvGo (AcceptLoop listenAndServeWSTLS)]
  ∧ List.filter is_acceptor (trace (Startup friendly) master0)
    = [EvGo (AcceptLoop listenAndServe)].
Proof.
  split; [reflexivity|]. split.
  - apply (acceptor_selection friendly ws_cert_only). reflexivity.
  - apply (acceptor_selection friendly master0). reflexivity.
Defined.

(** C8 is not what the four forwarding handlers do: on every envelope and
    every node each of them panics with ["implement me"]; none returns a
    result envelope. *)
Theorem handlers_panic n rq nt ps rs :
  HandleRequest rq n = (Panic "implement me", n, [])
  ∧ HandleNotify nt n = (Panic "implement me", n, [])
  ∧ HandlePush ps n = (Panic "implement me", n, [])
  ∧ HandleResponse rs n = (Panic "implement me", n, []).
Proof. repeat split. Qed.

(** Folding insertions of one address: the inserted keys end up bound to
    it, the other keys keep their binding. *)
Lemma foldl_insert_lookup (a : string) (l : list string) :
  ∀ (m : gmap string string) (s : string),
    s ∈ l ∨ m !! s = Some a →
    foldl (λ m s, <[s := a]> m) m l !! s = Some a.
Proof.
  induction l as [|x l IH]; intros m s Hs; cbn [foldl].
  - destruct Hs as [Hin|Hm]; [by apply elem_of_nil in Hin|done].
  - apply IH. destruct (decide (s = x)) as [->|Hne].
    + right. apply lookup_insert_eq.
    + destruct Hs as [[->|Hin]%elem_of_cons|Hm]; [done|by left|].
      right. by rewrite lookup_insert_ne.
Qed.

Lemma foldl_insert_lookup_other (a : string) (l : list string) :
  ∀ (m : gmap string string) (s : string),
    s ∉ l → foldl (λ m s, <[s := a]> m) m l !! s = m !! s.
Proof.
  induction l as [|x l IH]; intros m s Hs; cbn [foldl]; [done|].
  apply not_elem_of_cons in Hs as [Hne Hnin].
  rewrite IH by done. by rewrite lookup_insert_ne.
Qed.

(** C9. On a node that has its registry, [NewMember] returns an empty
    response and a nil error for every request, makes no call, and leaves
    the registry extended by the announced member: each announced service
    is bound to the member's address, the other remote entries and the
    local services are unchanged. *)
Theorem NewMember_never_fails n h req :
  handler n = Some h →
  let mi := clusterpb.nm_MemberInfo req in
  let h' := addRemoteService mi h in
  NewMember req n
  = (Return clusterpb.Build_NewMemberResponse, set_handler (Some h') n, [])
  ∧ (∀ s, s ∈ clusterpb.Services mi →
          remoteServices h' !! s = Some (clusterpb.MemberAddr mi))
  ∧ (∀ s, s ∉ clusterpb.Services mi →
          remoteServices h' !! s = remoteServices h !! s)
  ∧ localServices h' = localServices h.
Proof.
  intros Hh mi h'. split; [|split; [|split]].
  - unfold NewMember, on_handler. go_red. rewrite Hh. go_red. reflexivity.
  - intros s Hs. cbn. apply foldl_insert_lookup. by left.
  - intros s Hs. cbn. by apply foldl_insert_lookup_other.
  - reflexivity.
Qed.

(** A node that has a member server, hence can receive an announcement,
    has its registry. *)
Lemma Startup_serving_handler E n :
  fresh n →
  is_Some (memberServer (final (Startup E) n)) →
  is_Some (handler (final (Startup E) n)).
Proof.
  intros (_ & _ & _ & Hms & _) Hsrv.
  startup_cases E n; try by eexists.
  rewrite Hms in Hsrv. by destruct Hsrv.
Qed.


(** C9 at the member [member0] once started, for the announcement
    [announce]. *)
Lemma NewMember_never_fails_witness :
  ∃ h,
    handler (final (Startup friendly) member0) = Some h
    ∧ NewMember announce (final (Startup friendly) member0)
      = (Return clusterpb.Build_NewMemberResponse,
         set_handler
           (Some (addRemoteService (clusterpb.nm_MemberInfo announce) h))
           (final (Startup friendly) member0), [])
    ∧ remoteServices (addRemoteService (clusterpb.nm_MemberInfo announce) h)
        !! "chat" = Some "127.0.0.1:9003".
Proof.
  destruct (handler (final (Startup friendly) member0)) as [h|] eqn:Hh;
    [|vm_compute in Hh; discriminate Hh].
  exists h. split; [reflexivity|].
  destruct (NewMember_never_fails _ h announce Hh) as (Hrun & Hadd & _).
  split; [exact Hrun|]. apply Hadd. left.
Defined.

(** C10. [Shutdown] calls the [BeforeShutdown] hooks and the [Shutdown]
    hooks, then stops the master server when there is one, and does
    nothing else to the node.  On a node started as a non-master there is
    no master server: [Shutdown] leaves the node exactly as it was, stops
    no server, and the member server of a started member is still
    running. *)
Theorem Shutdown_effects E n0 n :
  (result Shutdown n = Return tt
   ∧ trace Shutdown n
     = hooks hook.BeforeShutdown (reverse (Components n))
       ++ hooks hook.Shutdown (reverse (Components n))
       ++ match masterServer n with
          | Some _ => [EvGracefulStop MasterServer]
          | None => []
          end
   ∧ final Shutdown n
     = match masterServer n with
       | Some s => set_masterServer (Some (grpc.GracefulStop s)) n
       | None => n
       end)
  ∧ (fresh n0 → IsMaster n0 = false →
     masterServer (final (Startup E) n0) = None
     ∧ final Shutdown (final (Startup E) n0) = final (Startup E) n0
     ∧ List.filter is_stop (trace Shutdown (final (Startup E) n0)) = []
     ∧ (result (Startup E) n0 = Return tt → AdvertiseAddr n0 ≠ "" →
        ∃ s, memberServer (final Shutdown (final (Startup E) n0)) = Some s
             ∧ grpc.running s = true)).
Proof.
  split.
  { unfold result, trace, final. by rewrite Shutdown_run. }
  intros (_ & _ & Hmaster & _) HM.
  assert (masterServer (final (Startup E) n0) = None) as Hnone.
  { startup_cases E n0; try congruence; exact Hmaster. }
  assert (final Shutdown (final (Startup E) n0) = final (Startup E) n0)
    as Hsame.
  { unfold final at 1. by rewrite Shutdown_run, Hnone. }
  split; [done|]. split; [done|]. split.
  { unfold trace at 1. rewrite Shutdown_run, Hnone. cbn [snd].
    by trace_filter. }
  intros Hres HA. rewrite Hsame.
  startup_cases E n0; try congruence.
  eexists. by split; [reflexivity|].
Qed.

(** C10 at the member [member0] once started. *)
Lemma Shutdown_effects_witness :
  fresh member0
  ∧ IsMaster member0 = false
  ∧ result (Startup friendly) member0 = Return tt
  ∧ masterServer (final (Startup friendly) member0) = None
  ∧ final Shutdown (final (Startup friendly) member0)
    = final (Startup friendly) member0
  ∧ List.filter is_stop (trace Shutdown (final (Startup friendly) member0))
    = []
  ∧ ∃ s, memberServer (final Shutdown (final (Startup friendly) member0))
         = Some s
         ∧ grpc.running s = true.
Proof.
  assert (fresh member0) as Hfresh by (by repeat split).
  split; [exact Hfresh|]. split; [reflexivity|]. split; [reflexivity|].
  destruct (Shutdown_effects friendly member0 member0) as [_ Hmember].
  destruct (Hmember Hfresh eq_refl) as (H1 & H2 & H3 & H4).
  split; [exact H1|]. split; [exact H2|]. split; [exact H3|].
  apply H4; [reflexivity|discriminate].
Defined.

(** ** Further properties of the code *)

(** X1. [Startup], [Shutdown] and [NewMember] never write an exported
    field of the node: the configuration after any of them, whatever its
    outcome, is the configuration before. *)
Theorem Startup_keeps_config E n req :
  same_config n (final (Startup E) n)
  ∧ same_config n (final Shutdown n)
  ∧ same_config n (final (NewMember req) n).
Proof.
  split; [|split].
  - startup_cases E n; unfold same_config; by repeat split.
  - unfold final. rewrite Shutdown_run. cbn [fst snd].
    destruct (masterServer n); by repeat split.
  - unfold final, NewMember, on_handler. go_red.
    destruct (handler n); go_red; by repeat split.
Qed.

(** X2. A run of [Startup] is one of three: the advertise-address guard
    refuses the node and nothing is called; or the registry accepts the
    first [j] components, refuses the next, and [Startup] stops there and
    returns that refusal, having called nothing but those registrations; or
    the registry accepts every component, in order, and only then come
    [cache] and whatever follows, with no further registration. *)
Theorem registration_comes_first E n :
  (IsMaster n && String.eqb (AdvertiseAddr n) "" = true
   ∧ trace (Startup E) n = [])
  ∨ (∃ j c hj e,
       Components n !! j = Some c
       ∧ accepted E (NewHandler (Pipeline n)) (take j (Components n)) hj
       ∧ handler_register E hj (component.Comp c) (component.Opts c) = inl e
       ∧ result (Startup E) n = Fail e
       ∧ trace (Startup E) n = regs (take (S j) (Components n)))
  ∨ (∃ h1 rest,
       accepted E (NewHandler (Pipeline n)) (Components n) h1
       ∧ trace (Startup E) n = regs (Components n) ++ EvCache :: rest
       ∧ List.filter is_register rest = []).
Proof.
  startup_cases E n.
  1:{ left. split; [|done].
      match goal with
      | HM : IsMaster _ = true, HA : AdvertiseAddr _ = "" |- _ =>
          by rewrite HM, HA
      end. }
  1:{ right. left.
      match goal with
      | Hrun : range _ _ _ = (Fail _, _, _), Hk : _ < _ |- _ =>
          destruct (refused_accepted E _ _ _ _ Hrun Hk)
            as (c & Hc & Hacc & He)
      end.
      by eexists _, c, _, _. }
  all: right; right; eexists h1, _;
    (split; [by apply registered_accepted|]); (split; [reflexivity|]);
    cbn [List.filter is_register app]; unfold launch;
    rewrite ?List.filter_app, ?filter_hooks_out by done; reflexivity.
Qed.

(** X3. A node that is neither master nor member (no advertise address)
    starts without any network call, server or RPC client; the only
    goroutine it launches is the acceptor, and it starts exactly when the
    registry accepts each of its components. *)
Theorem standalone_touches_no_network E n :
  fresh n →
  IsMaster n = false →
  AdvertiseAddr n = "" →
  List.filter is_network (trace (Startup E) n) = []
  ∧ List.filter is_go (trace (Startup E) n)
    = match result (Startup E) n with
      | Return _ => [EvGo (AcceptLoop (acceptor n))]
      | _ => []
      end
  ∧ masterServer (final (Startup E) n) = None
  ∧ memberServer (final (Startup E) n) = None
  ∧ rpcClient (final (Startup E) n) = None
  ∧ (result (Startup E) n = Return tt
     ↔ ∃ h1, accepted E (NewHandler (Pipeline n)) (Components n) h1).
Proof.
  intros (_ & _ & Hms & Hmb & Hrpc) HM HA.
  startup_cases E n; try congruence.
  - split; [by trace_filter|]. split; [by apply filter_regs|].
    do 3 (split; [done|]). split; [done|].
    intros [h2 Hacc%accepted_registered]. congruence.
  - split; [by trace_filter|]. split.
    { unfold launch. rewrite !List.filter_app, filter_regs by done.
      by rewrite !filter_hooks_out by done. }
    do 3 (split; [done|]). split; [|done].
    intros _. eexists. by eapply registered_accepted.
Qed.

(** X3 at a standalone websocket node, in the strict world. *)
Lemma standalone_touches_no_network_witness :
  fresh ws_cert_only
  ∧ IsMaster ws_cert_only = false
  ∧ AdvertiseAddr ws_cert_only = ""
  ∧ List.filter is_network (trace (Startup strict) ws_cert_only) = []
  ∧ rpcClient (final (Startup strict) ws_cert_only) = None
  ∧ result (Startup strict) ws_cert_only = Return tt.
Proof.
  assert (fresh ws_cert_only) as Hfresh by (by repeat split).
  split; [exact Hfresh|]. split; [reflexivity|]. split; [reflexivity|].
  destruct (standalone_touches_no_network strict ws_cert_only Hfresh
              eq_refl eq_refl) as (H1 & _ & _ & _ & H5 & H6).
  split; [exact H1|]. split; [exact H5|].
  apply H6. eexists. repeat (econstructor; [reflexivity|]). constructor.
Defined.

(** X4. A member that starts has made exactly three network calls, in this
    order: the bind of its member address, the dial of the advertise
    address, and one registration announcing member type ["member"] and its
    member address.  Its member server serves the Member service on that
    one listener, and the goroutines launched are that server and the
    acceptor. *)
Theorem member_bootstrap_order E n :
  IsMaster n = false →
  AdvertiseAddr n ≠ "" →
  result (Startup E) n = Return tt →
  ∃ req s,
    List.filter is_network (trace (Startup E) n)
    = [EvListen "tcp" (MemberAddr n); EvDial (AdvertiseAddr n);
       EvRegisterRPC req]
    ∧ clusterpb.MemberType (clusterpb.req_MemberInfo req) = "member"
    ∧ clusterpb.MemberAddr (clusterpb.req_MemberInfo req) = MemberAddr n
    ∧ bad_member_addr (MemberAddr n) = false
    ∧ memberServer (final (Startup E) n) = Some s
    ∧ grpc.registered s = [clusterpb.MemberService]
    ∧ grpc.listeners s = [tcp (MemberAddr n)]
    ∧ grpc.stopped s = false
    ∧ List.filter is_go (trace (Startup E) n)
      = [EvGo (ServeMember (tcp (MemberAddr n)));
         EvGo (AcceptLoop (acceptor n))].
Proof.
  intros HM HA Hres. startup_cases E n; try congruence.
  eexists (member_request n h1), _.
  split; [by trace_filter|].
  do 3 (split; [done|]). do 4 (split; [reflexivity|]).
  unfold launch. rewrite !List.filter_app, filter_regs by done.
  by rewrite !filter_hooks_out by done.
Qed.

Lemma member_bootstrap_order_witness :
  IsMaster member0 = false
  ∧ AdvertiseAddr member0 ≠ ""
  ∧ result (Startup friendly) member0 = Return tt
  ∧ ∃ req,
      List.filter is_network (trace (Startup friendly) member0)
      = [EvListen "tcp" "127.0.0.1:9001"; EvDial "127.0.0.1:9000";
         EvRegisterRPC req].
Proof.
  split; [reflexivity|]. split; [discriminate|]. split; [reflexivity|].
  destruct (member_bootstrap_order friendly member0)
    as (req & s & Hnet & _); [reflexivity|discriminate|reflexivity|].
  exists req. exact Hnet.
Defined.

(** X5. When a member's [Startup] fails after it has dialled the master,
    the member server launched before the dial is left serving: nothing
    stops it, neither the failing [Startup] nor a later [Shutdown]. *)
Theorem failed_member_keeps_serving E n e :
  IsMaster n = false →
  result (Startup E) n = Fail e →
  EvDial (AdvertiseAddr n) ∈ trace (Startup E) n →
  ∃ s,
    memberServer (final (Startup E) n) = Some s
    ∧ grpc.running s = true
    ∧ grpc.listeners s = [tcp (MemberAddr n)]
    ∧ List.filter is_stop (trace (Startup E) n) = []
    ∧ memberServer (final Shutdown (final (Startup E) n)) = Some s.
Proof.
  intros HM Hres Hdial.
  assert (∀ cs, EvDial (AdvertiseAddr n) ∉ regs cs) as Hregs.
  { intros cs. unfold regs. induction cs as [|c cs IH]; [apply not_elem_of_nil|].
    cbn. rewrite not_elem_of_cons. done. }
  assert (∀ n', final Shutdown n' = match masterServer n' with
                                    | Some s => set_masterServer
                                                  (Some (grpc.GracefulStop s)) n'
                                    | None => n'
                                    end) as Hdown.
  { intros n'. unfold final. by rewrite Shutdown_run. }
  startup_cases E n; try congruence.
  1-3: exfalso; revert Hdial; rewrite ?elem_of_app; intros Hdial.
  - by apply Hregs in Hdial.
  - destruct Hdial as [Hin|Hin]; [by apply Hregs in Hin|].
    apply list_elem_of_In in Hin. cbn in Hin. intuition discriminate.
  - destruct Hdial as [Hin|Hin]; [by apply Hregs in Hin|].
    apply list_elem_of_In in Hin. cbn in Hin. intuition discriminate.
  - eexists. split; [reflexivity|]. do 2 (split; [reflexivity|]).
    split; [by trace_filter|].
    rewrite Hdown. cbn. by destruct (masterServer n).
  - eexists. split; [reflexivity|]. do 2 (split; [reflexivity|]).
    split; [by trace_filter|].
    rewrite Hdown. cbn. by destruct (masterServer n).
Qed.

Lemma failed_member_keeps_serving_witness :
  IsMaster member0 = false
  ∧ result (Startup refusing_master) member0 = Fail "registration refused"
  ∧ ∃ s,
      memberServer (final (Startup refusing_master) member0) = Some s
      ∧ grpc.running s = true
      ∧ memberServer (final Shutdown (final (Startup refusing_master) member0))
        = Some s.
Proof.
  split; [reflexivity|]. split; [reflexivity|].
  destruct (failed_member_keeps_serving refusing_master member0
              "registration refused")
    as (s & H1 & H2 & _ & _ & H5); [reflexivity|reflexivity| |].
  - apply list_elem_of_In. vm_compute. repeat first [left; reflexivity|right].
  - exists s. split; [exact H1|]. split; [exact H2|exact H5].
Defined.

(** X6. When the advertise address of a master cannot be bound, [Startup]
    fails (with the bind error once the bind was attempted), launches no
    goroutine, calls no hook and leaves both servers and the RPC client
    nil. *)
Theorem master_bind_failure E n err :
  fresh n →
  IsMaster n = true →
  net_Listen E "tcp" (AdvertiseAddr n) = Some err →
  ∃ e,
    result (Startup E) n = Fail e
    ∧ (EvListen "tcp" (AdvertiseAddr n) ∈ trace (Startup E) n → e = err)
    ∧ List.filter is_go (trace (Startup E) n) = []
    ∧ List.filter is_hook (trace (Startup E) n) = []
    ∧ masterServer (final (Startup E) n) = None
    ∧ memberServer (final (Startup E) n) = None
    ∧ rpcClient (final (Startup E) n) = None.
Proof.
  intros (_ & _ & Hms & Hmb & Hrpc) HM HL.
  assert (∀ cs, EvListen "tcp" (AdvertiseAddr n) ∉ regs cs) as Hregs.
  { intros cs. unfold regs. induction cs as [|c cs IH]; [apply not_elem_of_nil|].
    cbn. rewrite not_elem_of_cons. done. }
  startup_cases E n; try congruence.
  - eexists. split; [reflexivity|]. split.
    { intros Hin. by apply elem_of_nil in Hin. }
    by repeat split.
  - eexists. split; [reflexivity|]. split.
    { intros Hin. by apply Hregs in Hin. }
    split; [by apply filter_regs|]. split; [by apply filter_regs|].
    by repeat split.
  - eexists. split; [reflexivity|]. split; [congruence|].
    split; [by rewrite List.filter_app, filter_regs by done|].
    split; [by trace_filter|]. by repeat split.
Qed.

Lemma master_bind_failure_witness :
  fresh master0
  ∧ IsMaster master0 = true
  ∧ EvListen "tcp" (AdvertiseAddr master0) ∈ trace (Startup port_taken) master0
  ∧ ∃ e,
      result (Startup port_taken) master0 = Fail e
      ∧ (EvListen "tcp" (AdvertiseAddr master0)
           ∈ trace (Startup port_taken) master0 →
         e = "address already in use")
      ∧ masterServer (final (Startup port_taken) master0) = None.
Proof.
  assert (fresh master0) as Hfresh by (by repeat split).
  split; [exact Hfresh|]. split; [reflexivity|].
  split.
  { apply list_elem_of_In. vm_compute. repeat first [left; reflexivity|right]. }
  destruct (master_bind_failure port_taken master0 "address already in use"
              Hfresh eq_refl eq_refl)
    as (e & H1 & H2 & _ & _ & H5 & _).
  exists e. split; [exact H1|]. split; [exact H2|exact H5].
Defined.

(** X7. [Handler()] after [Startup]: non-nil in every run that passed the
    advertise-address guard, even a failed one; when the guard refuses the
    node, [Startup] has changed nothing and [Handler()] returns what it
    returned before. *)
Theorem Handler_after_Startup E n :
  (IsMaster n && String.eqb (AdvertiseAddr n) "" = false →
   ∃ h, Handler (final (Startup E) n)
        = (Return (Some h), final (Startup E) n, []))
  ∧ (IsMaster n && String.eqb (AdvertiseAddr n) "" = true →
     Handler (final (Startup E) n) = (Return (handler n), n, [])).
Proof.
  split; intros Hguard.
  - startup_cases E n; try (eexists; reflexivity).
    match goal with
    | HM : IsMaster _ = true, HA : AdvertiseAddr _ = "" |- _ =>
        rewrite HM, HA in Hguard; discriminate
    end.
  - apply andb_prop in Hguard as [HM HA%String.eqb_eq].
    unfold final. by rewrite (Startup_no_advertise E n HM HA).
Qed.

Lemma Handler_after_Startup_witness :
  (∃ h, Handler (final (Startup friendly) member_noport)
        = (Return (Some h), final (Startup friendly) member_noport, []))
  ∧ Handler (final (Startup friendly) master_no_advertise)
    = (Return None, master_no_advertise, []).
Proof.
  split.
  - apply (Handler_after_Startup friendly member_noport). reflexivity.
  - apply (Handler_after_Startup friendly master_no_advertise). reflexivity.
Defined.

(** X8. [Shutdown] is not guarded against a second call: two calls in a row
    run every hook twice (and stop the master server twice), and leave the
    node as one call does. *)
Theorem Shutdown_twice n :
  result (Shutdown;; Shutdown) n = Return tt
  ∧ trace (Shutdown;; Shutdown) n = trace Shutdown n ++ trace Shutdown n
  ∧ final (Shutdown;; Shutdown) n = final Shutdown n.
Proof.
  unfold result, trace, final. rewrite bind_run, Shutdown_run.
  cbv beta iota. rewrite Shutdown_run.
  destruct (masterServer n) eqn:Hm;
    cbn [fst snd masterServer set_masterServer Components];
    rewrite ?Hm; by repeat split.
Qed.

(** X9. [Shutdown] of a started master stops the master server, after all
    the hooks; the server is then stopped and no longer running, and the
    member server is untouched. *)
Theorem master_Shutdown_stops_master_server E n :
  IsMaster n = true →
  result (Startup E) n = Return tt →
  ∃ s,
    trace Shutdown (final (Startup E) n)
    = hooks hook.BeforeShutdown (reverse (Components n))
      ++ hooks hook.Shutdown (reverse (Components n))
      ++ [EvGracefulStop MasterServer]
    ∧ masterServer (final Shutdown (final (Startup E) n)) = Some s
    ∧ grpc.stopped s = true
    ∧ grpc.running s = false
    ∧ grpc.listeners s = [tcp (AdvertiseAddr n)]
    ∧ memberServer (final Shutdown (final (Startup E) n))
      = memberServer (final (Startup E) n).
Proof.
  intros HM Hres. startup_cases E n; try congruence.
  unfold trace, final. rewrite Shutdown_run. cbn.
  eexists. by repeat split.
Qed.

Lemma master_Shutdown_stops_master_server_witness :
  IsMaster master0 = true
  ∧ result (Startup friendly) master0 = Return tt
  ∧ ∃ s,
      masterServer (final Shutdown (final (Startup friendly) master0)) = Some s
      ∧ grpc.stopped s = true
      ∧ grpc.running s = false.
Proof.
  split; [reflexivity|]. split; [reflexivity|].
  destruct (master_Shutdown_stops_master_server friendly master0)
    as (s & _ & H2 & H3 & H4 & _); [reflexivity|reflexivity|].
  exists s. split; [exact H2|]. split; [exact H3|exact H4].
Defined.

(** The first [":"] of a string splits it into a colon-free host and a rest. *)
Lemma Index_colon_Some s : ∀ i,
  GoStrings.Index s ":" = Some i →
  ∃ rest,
    s = String.substring 0 i s +:+ ":" +:+ rest
    ∧ String.length (String.substring 0 i s) = i
    ∧ GoStrings.Index (String.substring 0 i s) ":" = None.
Proof.
  unfold GoStrings.Index.
  induction s as [|b s IH]; intros i; [done|].
  cbn [String.index String.prefix].
  match goal with
  | |- context [Ascii.ascii_dec ?a b] =>
      destruct (Ascii.ascii_dec a b) as [<-|Hb]
  end.
  - destruct s; intros [= <-]; eexists; by repeat split.
  - destruct (String.index 0 ":" s) as [j|]; [|done].
    intros [= <-]. destruct (IH j eq_refl) as (rest & Hs & Hlen & Hnone).
    exists rest. cbn [String.substring]. split; [|split].
    + rewrite Hs at 1. reflexivity.
    + cbn [String.length]. by f_equal.
    + cbn [String.index String.prefix].
      match goal with
      | |- context [Ascii.ascii_dec ?a b] =>
          destruct (Ascii.ascii_dec a b); [done|]
      end.
      by rewrite Hnone.
Qed.

Lemma Index_colon_app host rest :
  GoStrings.Index host ":" = None →
  GoStrings.Index (host +:+ ":" +:+ rest) ":" = Some (String.length host)
  ∧ String.substring 0 (String.length host) (host +:+ ":" +:+ rest) = host.
Proof.
  unfold GoStrings.Index.
  induction host as [|b host IH]; intros Hnone.
  - unfold String.append. cbn. destruct rest; by split.
  - change (String b host +:+ ":" +:+ rest)
      with (String b (host +:+ ":" +:+ rest)).
    revert Hnone.
    cbn [String.index String.prefix String.length String.substring].
    match goal with
    | |- context [Ascii.ascii_dec ?a b] =>
        destruct (Ascii.ascii_dec a b) as [<-|Hb]
    end.
    { by destruct host. }
    destruct (String.index 0 ":" host) as [j|] eqn:Hj; [done|]. intros _.
    destruct (IH eq_refl) as [-> ->]. by split.
Qed.

(** An address that passes the guard of [initMember] is a non-empty,
    colon-free host followed by [":"] and a rest. *)
Lemma guard_passed_form addr :
  bad_member_addr addr = false →
  ∃ host rest,
    addr = host +:+ ":" +:+ rest
    ∧ host ≠ ""
    ∧ GoStrings.Contains host ":" = false.
Proof.
  unfold bad_member_addr, GoStrings.Contains. intros Hbad.
  apply orb_false_elim in Hbad as [Hbad Hhost].
  apply orb_false_elim in Hbad as [_ Hcolon].
  cbn [GoStrings.SplitN] in Hhost.
  destruct (GoStrings.Index addr ":") as [i|] eqn:Hi; [|done].
  destruct (Index_colon_Some addr i Hi) as (rest & Haddr & _ & Hnone).
  exists (String.substring 0 i addr), rest. split; [done|]. split.
  - cbn in Hhost. by apply String.eqb_neq in Hhost.
  - by rewrite Hnone.
Qed.

(** X10. The guard of [initMember] lets through exactly the addresses made
    of a non-empty host without [":"], a [":"], and any rest (an empty or
    colon-ridden port included). *)
Theorem member_addr_guard_accepts addr :
  bad_member_addr addr = false
  ↔ ∃ host rest,
      addr = host +:+ ":" +:+ rest
      ∧ host ≠ ""
      ∧ GoStrings.Contains host ":" = false.
Proof.
  split; [apply guard_passed_form|].
  unfold bad_member_addr, GoStrings.Contains.
  intros (host & rest & -> & Hhost & Hnone).
  destruct (GoStrings.Index host ":") eqn:Hi; [done|].
  destruct (Index_colon_app host rest Hi) as [Hidx Hsub].
  cbn [GoStrings.SplitN]. rewrite Hidx. cbn [negb orb head default].
  rewrite Hsub. unfold id. rewrite orb_false_r.
  apply orb_false_intro; apply String.eqb_neq; [|done].
  by destruct host.
Qed.

(** X11. A node that has started has a valid configuration: a master has an
    advertise address, a member has a member address of the form
    host [":"] rest with a non-empty, colon-free host. *)
Theorem Startup_success_needs_valid_config E n :
  result (Startup E) n = Return tt →
  (IsMaster n = true → AdvertiseAddr n ≠ "")
  ∧ (IsMaster n = false → AdvertiseAddr n ≠ "" →
     ∃ host rest,
       MemberAddr n = host +:+ ":" +:+ rest
       ∧ host ≠ ""
       ∧ GoStrings.Contains host ":" = false).
Proof.
  intros Hres. startup_cases E n; try congruence.
  - split; [done|congruence].
  - split; [congruence|]. intros _ _. by apply guard_passed_form.
  - split; congruence.
Qed.

Lemma Startup_success_needs_valid_config_witness :
  result (Startup friendly) member0 = Return tt
  ∧ ∃ host rest,
      MemberAddr member0 = host +:+ ":" +:+ rest
      ∧ host ≠ ""
      ∧ GoStrings.Contains host ":" = false.
Proof.
  split; [reflexivity|].
  destruct (Startup_success_needs_valid_config friendly member0 eq_refl)
    as [_ Hmember].
  apply Hmember; [reflexivity|discriminate].
Defined.

(** X12. A member starts exactly when its address passes the guard, the
    registry accepts each of its components, its address can be bound, the
    master can be dialled and the master accepts the registration request
    built from the resulting registry. *)
Theorem Startup_member_returns E n :
  IsMaster n = false →
  AdvertiseAddr n ≠ "" →
  (result (Startup E) n = Return tt
   ↔ ∃ h1 resp,
       bad_member_addr (MemberAddr n) = false
       ∧ accepted E (NewHandler (Pipeline n)) (Components n) h1
       ∧ net_Listen E "tcp" (MemberAddr n) = None
       ∧ getConnArray E (AdvertiseAddr n) = None
       ∧ master_Register E (member_request n h1) = inr resp).
Proof.
  intros HM HA. split.
  - intros Hres. startup_cases E n; try congruence.
    eexists h1, resp. split; [done|].
    split; [by apply registered_accepted|]. by repeat split.
  - intros (h1 & resp & Hbad & Hacc%accepted_registered & HL & HD & HR).
    startup_cases E n; try congruence.
    all: match goal with
         | Hrun : range _ _ _ = (Return tt, registered _ ?h, _) |- _ =>
             rewrite Hacc in Hrun; injection Hrun as <-
         end; congruence.
Qed.

(** X12 at the member [member0], in the strict world. *)
Lemma Startup_member_returns_witness :
  IsMaster member0 = false
  ∧ AdvertiseAddr member0 ≠ ""
  ∧ result (Startup strict) member0 = Return tt.
Proof.
  split; [reflexivity|]. split; [discriminate|].
  apply (Startup_member_returns strict member0); [reflexivity|discriminate|].
  eexists _, _. split; [reflexivity|]. split.
  { repeat (econstructor; [reflexivity|]). constructor. }
  repeat split.
Defined.

Lemma accept_loop_app a1 a2 :
  accept_loop (a1 ++ a2) = accept_loop a1 ++ accept_loop a2.
Proof.
  induction a1 as [|[c|e] a1 IH]; [done| |]; cbn; by rewrite IH.
Qed.

(** X13. Once [listenAndServe] has bound the server address, whatever
    [Accept] answers: the function is still accepting, every accepted
    connection has been handed to the handler, in order, every failed
    accept has only been logged, nothing has exited the process or closed
    the listener, and further answers only extend what was done. *)
Theorem accept_loop_survives_errors E n answers more :
  net_Listen E "tcp" (ServerAddr n) = None →
  (run_listenAndServe E n answers).1 = Accepting
  ∧ handled (run_listenAndServe E n answers).2 = accepted_conns answers
  ∧ printed (run_listenAndServe E n answers).2 = accept_errors answers
  ∧ List.filter is_exit (run_listenAndServe E n answers).2 = []
  ∧ (run_listenAndServe E n (answers ++ more)).2
    = (run_listenAndServe E n answers).2 ++ accept_loop more.
Proof.
  intros HL. unfold run_listenAndServe. rewrite HL. cbn [fst snd].
  split; [done|].
  assert (handled (accept_loop answers) = accepted_conns answers
          ∧ printed (accept_loop answers) = accept_errors answers
          ∧ List.filter is_exit (accept_loop answers) = []) as (H1 & H2 & H3).
  { induction answers as [|[c|e] answers (IH1 & IH2 & IH3)]; [done| |].
    - unfold handled, printed, accepted_conns, accept_errors in *.
      cbn. by rewrite IH1, IH2, IH3.
    - unfold handled, printed, accepted_conns, accept_errors in *.
      cbn. by rewrite IH1, IH2, IH3. }
  split; [exact H1|]. split; [exact H2|]. split; [exact H3|].
  by rewrite accept_loop_app.
Qed.

Lemma accept_loop_survives_errors_witness :
  net_Listen friendly "tcp" (ServerAddr master0) = None
  ∧ handled (run_listenAndServe friendly master0
               [Accepted "c1"; AcceptFailed "too many open files";
                Accepted "c2"]).2
    = ["c1"; "c2"]
  ∧ printed (run_listenAndServe friendly master0
               [Accepted "c1"; AcceptFailed "too many open files";
                Accepted "c2"]).2
    = ["too many open files"].
Proof.
  split; [reflexivity|].
  destruct (accept_loop_survives_errors friendly master0
              [Accepted "c1"; AcceptFailed "too many open files";
               Accepted "c2"] [] eq_refl)
    as (_ & H1 & H2 & _).
  split; [exact H1|exact H2].
Defined.

Lemma substring_all s : String.substring 0 (String.length s) s = s.
Proof. induction s as [|c s IH]; [done|]. cbn. by rewrite IH. Qed.

(** X14. The pattern registered by both WebSocket acceptors always starts
    with ["/"]: it is the configured path itself when that starts with
    ["/"], the path with ["/"] put in front otherwise; normalising twice
    changes nothing. *)
Theorem ws_pattern_normalised WSPath :
  String.prefix "/" (ws_pattern WSPath) = true
  ∧ (String.prefix "/" WSPath = true → ws_pattern WSPath = WSPath)
  ∧ (String.prefix "/" WSPath = false → ws_pattern WSPath = "/" +:+ WSPath)
  ∧ ws_pattern (ws_pattern WSPath) = ws_pattern WSPath.
Proof.
  assert (∀ p, String.prefix "/" p = true → ws_pattern p = p) as Hkeep.
  { intros [|c p]; [done|]. unfold ws_pattern, TrimPrefix.
    intros Hp. rewrite Hp. revert Hp. cbn [String.prefix].
    destruct (Ascii.ascii_dec _ c) as [<-|]; [|done]. intros _.
    cbn [String.length Nat.sub]. rewrite Nat.sub_0_r.
    cbn [String.substring]. by rewrite substring_all. }
  assert (String.prefix "/" (ws_pattern WSPath) = true) as Hslash.
  { unfold ws_pattern. by destruct (TrimPrefix WSPath "/"). }
  split; [exact Hslash|]. split; [apply Hkeep|]. split.
  - intros Hp. unfold ws_pattern, TrimPrefix. by rewrite Hp.
  - by apply Hkeep.
Qed.
